(** * AI Financial Advisor dashboard (app.py): a shallow embedding

    The program is one Streamlit script.  Each user event re-runs [main]
    against the per-session store [st.session_state]; the script talks to
    three outside services: the page (the [st.*] calls), the market-data
    library ([yf.Ticker]) and the LLM agent runtime ([Agent]).

    The embedding keeps that shape.  Python values are modelled by the
    closest Rocq data (strings, lists, an insertion-ordered dictionary as an
    association list); the outside services are the fields of a [world]
    record, each returning an [outcome] (a value or a raised exception); the
    script's statements are computations in a small state-and-exception
    monad [M] whose state holds the session store, the page rendered so far
    and the number of clock readings taken.

    Floating-point prices and times are kept behind the interface
    [Float64]: the embedding never computes a float, it records which
    operation the source applies to which operands, and f-strings that
    format a float are kept as a list of pieces. *)

From Stdlib Require Import List String Ascii Bool Arith PeanoNat ZArith QArith Lia.
Import ListNotations.
Local Open Scope string_scope.
Local Open Scope nat_scope.
Local Open Scope list_scope.

Set Implicit Arguments.

(** ** Python strings

    A Python [str] is modelled by the bytes of its UTF-8 encoding, Stdlib's
    [string].  [split] and [join] cut and glue at ASCII bytes, which no
    multi-byte character contains, and are exact on every text.  [isspace],
    [upper], [lstrip], [rstrip] and [strip] know the ASCII range only: they
    agree with Python's [str] methods of the same name on ASCII text
    ([isascii]), and not on text with white space or letters beyond it, so
    every statement that depends on them is made for ASCII text. *)
Module Py.

(** [s.isascii()] *)
Fixpoint isascii (s : string) : bool :=
  match s with
  | EmptyString => true
  | String c s' => (nat_of_ascii c <? 128) && isascii s'
  end.

(** [c.isspace()] on the ASCII range: TAB..CR, FS..US and the space. *)
Definition isspace (c : ascii) : bool :=
  let n := nat_of_ascii c in
  ((9 <=? n) && (n <=? 13)) || ((28 <=? n) && (n <=? 32)).

Definition islower (c : ascii) : bool :=
  let n := nat_of_ascii c in (97 <=? n) && (n <=? 122).

Definition upper_char (c : ascii) : ascii :=
  if islower c then ascii_of_nat (nat_of_ascii c - 32) else c.

(** [s.upper()] *)
Fixpoint upper (s : string) : string :=
  match s with
  | EmptyString => EmptyString
  | String c s' => String (upper_char c) (upper s')
  end.

(** [s.lstrip()] *)
Fixpoint lstrip (s : string) : string :=
  match s with
  | EmptyString => EmptyString
  | String c s' => if isspace c then lstrip s' else s
  end.

(** [s.rstrip()] *)
Fixpoint rstrip (s : string) : string :=
  match s with
  | EmptyString => EmptyString
  | String c s' =>
      match rstrip s' with
      | EmptyString => if isspace c then EmptyString else String c EmptyString
      | r => String c r
      end
  end.

(** [s.strip()] *)
Definition strip (s : string) : string := rstrip (lstrip s).

(** [s.split(sep)] for a one-character separator: never the empty list,
    [''.split(',') == ['']]. *)
Fixpoint split (sep : ascii) (s : string) : list string :=
  match s with
  | EmptyString => [EmptyString]
  | String c s' =>
      if Ascii.eqb c sep then EmptyString :: split sep s'
      else match split sep s' with
           | p :: ps => String c p :: ps
           | [] => [String c EmptyString]
           end
  end.

(** [sep.join(l)] *)
Definition join (sep : string) (l : list string) : string := String.concat sep l.

(** Truth value of a string and of a list: non-empty. *)
Definition truthy_str (s : string) : bool :=
  match s with EmptyString => false | _ => true end.

Definition truthy_list {A} (l : list A) : bool :=
  match l with [] => false | _ => true end.

(** [l[-k:]] for [k >= 1]: the last [k] items, all of them when there are fewer. *)
Definition slice_last {A} (k : nat) (l : list A) : list A :=
  skipn (List.length l - k) l.

(** Python's [dict]: keys are unique and keep the order of first insertion;
    assigning to a present key replaces the value in place. *)
Definition dict (V : Type) : Type := list (string * V).

Fixpoint dict_set {V} (k : string) (v : V) (d : dict V) : dict V :=
  match d with
  | [] => [(k, v)]
  | (k', v') :: d' =>
      if String.eqb k k' then (k, v) :: d' else (k', v') :: dict_set k v d'
  end.

Fixpoint dict_get {V} (k : string) (d : dict V) : option V :=
  match d with
  | [] => None
  | (k', v') :: d' => if String.eqb k k' then Some v' else dict_get k d'
  end.

Definition keys {V} (d : dict V) : list string := map fst d.

(** [d.get(key, default)] *)
Definition get {V} (key : string) (default : V) (d : dict V) : V :=
  match dict_get key d with
  | Some v => v
  | None => default
  end.

End Py.

(** ** Exceptions

    An exception is modelled by its message [str(e)]; every exception of
    the model is an [Exception], so [except Exception] and a bare [except]
    both catch it. *)
Definition exn : Type := string.

Inductive outcome (A : Type) : Type :=
| Ret (a : A)
| Raise (e : exn).
Arguments Raise {A} e.

(** Sequencing of calls that may raise, outside any state. *)
Definition and_then {A B} (o : outcome A) (k : A -> outcome B) : outcome B :=
  match o with
  | Ret a => k a
  | Raise e => Raise e
  end.

Notation "x <~ o ;; k" := (and_then o (fun x => k))
  (at level 61, o at next level, right associativity).

(** ** Floats

    Prices, volumes and clock readings are numpy/Python floats.  The
    embedding is parametric in them: [fsub], [fdiv] and [fmul] are the
    operators [-], [/] and [*] (total on numpy floats: a zero divisor gives
    an infinity or a NaN and no exception), [of_int] the conversion of an
    integer literal and [truthy] the truth value ([bool(0.0)] is [False]). *)
Class Float64 (num : Type) : Type := {
  fsub : num -> num -> num;
  fdiv : num -> num -> num;
  fmul : num -> num -> num;
  of_int : Z -> num;
  truthy : num -> bool;
  truthy_zero : truthy (of_int 0) = false
}.

(** One instance, with exact rational arithmetic, to evaluate the
    definitions on concrete inputs; it is used on inputs without a zero
    divisor only, where [Qdiv] and the float division part ways. *)
#[export] Instance Q_Float64 : Float64 Q := {
  fsub := Qminus;
  fdiv := Qdiv;
  fmul := Qmult;
  of_int := inject_Z;
  truthy := fun q => negb (Qeq_bool q (inject_Z 0));
  truthy_zero := eq_refl
}.

(** ** The data model, the page and the outside world *)
Section App.

Context {num : Type} {F : Float64 num}.

(** The agent handle is opaque to the script. *)
Variable Agent : Type.

(** An f-string that formats a float is kept as its pieces:
    [f"{x:+.2f}"] is [Fixed true 2 x], [f"{x:.2f}"] is [Fixed false 2 x]. *)
Inductive piece : Type :=
| Lit (s : string)
| Fixed (plus : bool) (prec : nat) (x : num).

Definition fstring : Type := list piece.

Definition txt (s : string) : fstring := [Lit s].

(** One row of the [DataFrame] that [ticker.history] returns. *)
Record bar : Type := {
  Date : string;
  Open : num;
  High : num;
  Low : num;
  Close : num;
  Volume : Z
}.

Definition DataFrame : Type := list bar.

(** [hist.empty] *)
Definition empty (hist : DataFrame) : bool :=
  match hist with [] => true | _ => false end.

(** [series.iloc[i]]: a negative position counts from the end; a position
    out of range raises [IndexError]. *)
Definition iloc {A : Type} (series : list A) (i : Z) : outcome A :=
  let n := Z.of_nat (List.length series) in
  let j := if (i <? 0)%Z then (i + n)%Z else i in
  if ((0 <=? j)%Z && (j <? n)%Z)%bool then
    match nth_error series (Z.to_nat j) with
    | Some a => Ret a
    | None => Raise "single positional indexer is out-of-bounds"
    end
  else Raise "single positional indexer is out-of-bounds".

(** The value stored per symbol by [get_stock_data]. *)
Record StockSnapshot : Type := {
  history : DataFrame;
  info : Py.dict string;
  current_price : option num
}.

(** An item of [st.session_state.analysis_history]. *)
Record AnalysisRecord : Type := {
  timestamp : string;
  stocks : list string;
  query : string;
  response : string;
  duration : fstring
}.

(** [st.session_state] *)
Record session_state : Type := {
  agent : option Agent;
  analysis_history : list AnalysisRecord
}.

(** Plotly traces and figures. *)
Inductive trace : Type :=
| Scatter (x : list string) (y : list num) (mode : string) (name : string) (width : nat)
| Bar (x : list string) (y : list Z) (name : string).

Record Figure : Type := {
  traces : list trace;
  title : string;
  xaxis_title : string;
  yaxis_title : string;
  height : nat
}.

(** What the script puts on the page, in order. *)
Inductive ui : Type :=
| st_markdown_ (body : string)
| st_header_ (body : string)
| st_error_ (body : string)
| st_warning_ (body : string)
| st_info_ (body : string)
| st_success_ (body : fstring)
| st_metric_ (column : nat) (label : string) (value : fstring) (delta : option fstring)
| st_plotly_chart_ (fig : Figure)
| st_button_ (label : string) (disabled : bool)
| st_expander_ (label : string)
| st_write_ (body : string).

(** The state a run of the script acts on: the session store, the page
    rendered so far and the number of clock readings taken. *)
Record machine : Type := {
  session : session_state;
  page : list ui;
  clock : nat
}.

(** The outside services.  A call either returns or raises. *)
Record world : Type := {
  (* [Agent(model=Gemini(...), tools=[...], instructions=..., ...)] *)
  Agent_new : outcome Agent;
  (* [yf.Ticker(symbol).history(period=period)] *)
  Ticker_history : string -> string -> outcome DataFrame;
  (* [yf.Ticker(symbol).info] *)
  Ticker_info : string -> outcome (Py.dict string);
  (* [agent.run(query).content] *)
  Agent_run : Agent -> string -> outcome string;
  (* the n-th reading of [time.time()] *)
  time_at : nat -> num;
  (* [datetime.now().strftime("%Y-%m-%d %H:%M:%S")] after n readings *)
  now_at : nat -> string
}.

Variable W : world.

(** ** The monad of script statements *)
Definition M (A : Type) : Type := machine -> outcome A * machine.

Definition ret {A} (a : A) : M A := fun m => (Ret a, m).

Definition bind {A B} (c : M A) (k : A -> M B) : M B :=
  fun m =>
    match c m with
    | (Ret a, m') => k a m'
    | (Raise e, m') => (Raise e, m')
    end.

Notation "x <- c ;; k" := (bind c (fun x => k))
  (at level 61, c at next level, right associativity).
Notation "c ;; k" := (bind c (fun _ => k))
  (at level 61, right associativity).

(** [try: body  except Exception as e: handler e]; what the body did to
    the state before it raised stays done. *)
Definition try_except {A} (body : M A) (handler : exn -> M A) : M A :=
  fun m =>
    match body m with
    | (Ret a, m') => (Ret a, m')
    | (Raise e, m') => handler e m'
    end.

(** A call to an outside service. *)
Definition call {A} (o : outcome A) : M A := fun m => (o, m).

(** [for a in l: s = body(s, a)], [s] the variables the loop assigns. *)
Fixpoint for_each {A S} (l : list A) (body : S -> A -> M S) (s : S) : M S :=
  match l with
  | [] => ret s
  | a :: l' => s' <- body s a ;; for_each l' body s'
  end.

Definition emit (u : ui) : M unit :=
  fun m => (Ret tt, {| session := session m; page := page m ++ [u]; clock := clock m |}).

Definition st_markdown (body : string) : M unit := emit (st_markdown_ body).
Definition st_header (body : string) : M unit := emit (st_header_ body).
Definition st_error (body : string) : M unit := emit (st_error_ body).
Definition st_warning (body : string) : M unit := emit (st_warning_ body).
Definition st_info (body : string) : M unit := emit (st_info_ body).
Definition st_success (body : fstring) : M unit := emit (st_success_ body).
Definition st_metric (column : nat) (label : string) (value : fstring)
  (delta : option fstring) : M unit := emit (st_metric_ column label value delta).
Definition st_plotly_chart (fig : Figure) : M unit := emit (st_plotly_chart_ fig).
Definition st_expander (label : string) : M unit := emit (st_expander_ label).
Definition st_write (body : string) : M unit := emit (st_write_ body).

(** [st.button(label, disabled=d)]: the button is drawn; it returns [True]
    on the run its click triggers, and a disabled button takes no click. *)
Definition st_button (label : string) (disabled clicked : bool) : M bool :=
  emit (st_button_ label disabled) ;; ret (clicked && negb disabled)%bool.

Definition get_agent : M (option Agent) :=
  fun m => (Ret (agent (session m)), m).

Definition set_agent (a : option Agent) : M unit :=
  fun m => (Ret tt,
            {| session := {| agent := a;
                             analysis_history := analysis_history (session m) |};
               page := page m; clock := clock m |}).

(** [st.session_state.analysis_history.append(r)] *)
Definition history_append (r : AnalysisRecord) : M unit :=
  fun m => (Ret tt,
            {| session := {| agent := agent (session m);
                             analysis_history := analysis_history (session m) ++ [r] |};
               page := page m; clock := clock m |}).

(** [time.time()] *)
Definition time_time : M num :=
  fun m => (Ret (time_at W (clock m)),
            {| session := session m; page := page m; clock := S (clock m) |}).

Definition datetime_now : M string :=
  fun m => (Ret (now_at W (clock m)), m).

(** ** The script's functions *)

(** [create_agent()], lines 55-85. *)
Definition create_agent : M (option Agent) :=
  try_except
    (agent <- call (Agent_new W) ;;
     ret (Some agent))
    (fun e =>
       st_error ("Error creating agent: " ++ e) ;;
       ret None).

(** The value assigned to [data[symbol]], lines 92-99: the calls to the
    market-data library and the last close, any of which may raise. *)
Definition fetch_symbol (symbol period : string) : outcome StockSnapshot :=
  hist <~ Ticker_history W symbol period ;;
  info <~ Ticker_info W symbol ;;
  current_price <~ (if negb (empty hist)
                    then p <~ iloc (map Close hist) (-1) ;; Ret (Some p)
                    else Ret None) ;;
  Ret {| history := hist; info := info; current_price := current_price |}.

(** The body of the loop of [get_stock_data], lines 91-101; [data] is the
    dictionary built so far. *)
Definition get_stock_data_step (period : string)
  (data : Py.dict StockSnapshot) (symbol : string)
  : M (Py.dict StockSnapshot) :=
  try_except
    (snapshot <- call (fetch_symbol symbol period) ;;
     ret (Py.dict_set symbol snapshot data))
    (fun e =>
       st_warning ("Could not fetch data for " ++ symbol ++ ": " ++ e) ;;
       ret data).

(** [get_stock_data(symbols, period="6mo")], lines 87-102. *)
Definition get_stock_data (symbols : list string) (period : string)
  : M (Py.dict StockSnapshot) :=
  for_each symbols (get_stock_data_step period) [].

(** [create_price_chart(stock_data)], lines 104-127; [fig.add_trace]
    appends to the figure's traces. *)
Definition create_price_chart (stock_data : Py.dict StockSnapshot) : Figure :=
  let fig :=
    fold_left
      (fun fig item =>
         let '(symbol, data) := item in
         if negb (empty (history data))
         then fig ++ [Scatter (map Date (history data))
                              (map Close (history data))
                              "lines" symbol 2]
         else fig)
      stock_data [] in
  {| traces := fig;
     title := "Stock Price Comparison (6 Months)";
     xaxis_title := "Date";
     yaxis_title := "Price ($)";
     height := 500 |}.

(** [create_volume_chart(stock_data)], lines 129-150. *)
Definition create_volume_chart (stock_data : Py.dict StockSnapshot) : Figure :=
  let fig :=
    fold_left
      (fun fig item =>
         let '(symbol, data) := item in
         if negb (empty (history data))
         then fig ++ [Bar (Py.slice_last 30 (map Date (history data)))
                          (Py.slice_last 30 (map Volume (history data)))
                          symbol]
         else fig)
      stock_data [] in
  {| traces := fig;
     title := "Trading Volume Comparison (Last 30 Days)";
     xaxis_title := "Date";
     yaxis_title := "Volume";
     height := 400 |}.

Definition default_stocks : list string := ["AAPL"; "TSLA"; "GOOGL"].

(** The ticker selection of [main], lines 188-205: [multiselect] is the
    value of [st.multiselect], [custom_stocks] that of [st.text_input].
    Through [Py.strip] and [Py.upper] the entries are those of the source
    for an ASCII free-text. *)
Definition select_stocks (multiselect : list string) (custom_stocks : string)
  : list string :=
  let selected_stocks := multiselect in
  let selected_stocks :=
    if Py.truthy_str custom_stocks
    then map (fun s => Py.upper (Py.strip s)) (Py.split "," custom_stocks)
    else selected_stocks in
  if negb (Py.truthy_list selected_stocks) then default_stocks
  else selected_stocks.

(** The block under [with cols[i]:], lines 238-255. *)
Definition metric_card (i : nat) (symbol : string) (data : StockSnapshot)
  : M unit :=
  match current_price data with
  | Some price =>
      if truthy price then
        try_except
          (prev_close <- call (iloc (map Close (history data)) (-2)) ;;
           let current := price in
           let change := fsub current prev_close in
           let change_pct := fmul (fdiv change prev_close) (of_int 100) in
           st_metric i symbol
             [Lit "$"; Fixed false 2 current]
             (Some [Fixed true 2 change; Lit " ("; Fixed true 1 change_pct; Lit "%)"]))
          (fun _ =>
             st_metric i symbol [Lit "$"; Fixed false 2 price] None)
      else ret tt
  | None => ret tt
  end.

(** [for i, (symbol, data) in enumerate(stock_data.items()):], line 236;
    the loop variable carried is the next value of [i]. *)
Definition metric_cards (stock_data : Py.dict StockSnapshot) : M nat :=
  for_each stock_data
    (fun i item => metric_card i (fst item) (snd item) ;; ret (S i))
    0.

(** The four values of the [st.radio] of line 211. *)
Inductive analysis_mode : Type :=
| QuickComparison
| DetailedAnalysis
| RiskAssessment
| CustomQuery.

Definition nl : string := String (ascii_of_nat 10) EmptyString.
Definition dquote : string := String (ascii_of_nat 34) EmptyString.

(** The indentation the triple-quoted templates carry in the source. *)
Definition indent : string := "                    ".

(** A triple-quoted template: a newline, the indented lines, and the
    indentation before the closing quotes. *)
Definition template (body : list string) : string :=
  Py.join nl ([EmptyString] ++ map (append indent) body ++ [indent]).

(** The prompt built at lines 286-314. *)
Definition compose_query (analysis_type : analysis_mode)
  (selected_stocks : list string) (custom_query : string) : string :=
  match analysis_type with
  | QuickComparison =>
      template
        [ ("Provide a quick comparison of " ++ Py.join ", " selected_stocks
             ++ " stocks including:")%string;
          "- Current prices and recent performance";
          "- Key financial metrics";
          "- Brief analyst recommendations";
          "Use tables for clear data presentation." ]
  | DetailedAnalysis =>
      template
        [ ("Perform a comprehensive analysis of " ++ Py.join ", " selected_stocks
             ++ " including:")%string;
          "- Current stock prices and performance metrics";
          "- Company financial health and ratios";
          "- Analyst recommendations and price targets";
          "- Recent company news and developments";
          "- Investment risks and opportunities";
          "Present findings in well-structured tables and provide detailed reasoning." ]
  | RiskAssessment =>
      template
        [ ("Conduct a risk assessment for " ++ Py.join ", " selected_stocks
             ++ " focusing on:")%string;
          "- Volatility and price stability";
          "- Company-specific risks";
          "- Market and sector risks";
          "- Financial stability indicators";
          "Provide risk ratings and mitigation strategies." ]
  | CustomQuery =>
      ("Analyze " ++ Py.join ", " selected_stocks ++ " stocks: " ++ custom_query)%string
  end.

(** The [try] of lines 318-338, the analysis run proper. *)
Definition run_analysis (a : Agent) (selected_stocks : list string)
  (query : string) : M unit :=
  start_time <- time_time ;;
  response <- call (Agent_run W a query) ;;
  end_time <- time_time ;;
  st_markdown ("<div class=" ++ dquote ++ "analysis-section" ++ dquote ++ ">") ;;
  st_markdown "### 📋 Analysis Results" ;;
  st_markdown response ;;
  st_markdown "</div>" ;;
  now <- datetime_now ;;
  history_append
    {| timestamp := now;
       stocks := selected_stocks;
       query := query;
       response := response;
       duration := [Fixed false 2 (fsub end_time start_time); Lit "s"] |} ;;
  st_success [Lit "✅ Analysis completed in ";
              Fixed false 2 (fsub end_time start_time);
              Lit " seconds"].

(** The AI analysis section of [main], lines 279-342.  [custom_query] is
    the value of the text area, which exists in Custom Query mode only and
    is read in that mode only. *)
Definition analysis_section (selected_stocks : list string)
  (analysis_type : analysis_mode) (custom_query : string)
  (run_clicked : bool) : M unit :=
  a <- get_agent ;;
  match a with
  | None => st_warning "⚠️ Please initialize the AI Agent in the sidebar first."
  | Some a =>
      pressed <- st_button "🔍 Run Analysis"
                   (negb (Py.truthy_list selected_stocks)) run_clicked ;;
      if pressed then
        if Py.truthy_list selected_stocks then
          let query := compose_query analysis_type selected_stocks custom_query in
          try_except
            (run_analysis a selected_stocks query)
            (fun e =>
               st_error ("❌ Analysis failed: " ++ e) ;;
               st_info "💡 Try reinitializing the agent or check your query.")
        else ret tt
      else ret tt
  end.

(** The agent initialisation of the sidebar, lines 163-169. *)
Definition initialize_agent (init_clicked : bool) : M unit :=
  pressed <- st_button "🚀 Initialize AI Agent" false init_clicked ;;
  if pressed then
    a <- create_agent ;;
    set_agent a ;;
    match a with
    | Some _ => st_success (txt "✅ Agent initialized successfully!")
    | None => st_error "❌ Failed to initialize agent"
    end
  else ret tt.

(** The left column of the main area, lines 227-261, as a statement (see
    [col1] for the same lines with the variable they bind). *)
Definition data_column (selected_stocks : list string) : M unit :=
  if Py.truthy_list selected_stocks then
    st_header ("📈 Live Data for " ++ Py.join ", " selected_stocks) ;;
    stock_data <- get_stock_data selected_stocks "6mo" ;;
    if Py.truthy_list stock_data then
      metric_cards stock_data ;;
      st_plotly_chart (create_price_chart stock_data) ;;
      st_plotly_chart (create_volume_chart stock_data)
    else ret tt
  else ret tt.

(** The values the widgets return on one run of the script. *)
Record widgets : Type := {
  init_clicked : bool;
  multiselect : list string;
  custom_stocks : string;
  analysis_type : analysis_mode;
  custom_query : string;
  run_clicked : bool
}.

(** The block under [with col1:], lines 225-261, with the value it leaves
    in the variable [stock_data]: the fetched dictionary, or nothing ([None],
    the variable is unbound) when no stock is selected. *)
Definition col1 (selected_stocks : list string)
  : M (option (Py.dict StockSnapshot)) :=
  if Py.truthy_list selected_stocks then
    st_header ("📈 Live Data for " ++ Py.join ", " selected_stocks) ;;
    stock_data <- get_stock_data selected_stocks "6mo" ;;
    (if Py.truthy_list stock_data then
       metric_cards stock_data ;;
       st_plotly_chart (create_price_chart stock_data) ;;
       st_plotly_chart (create_volume_chart stock_data)
     else ret tt) ;;
    ret (Some stock_data)
  else ret None.

(** [format(v, ',.0f')] for an info value [v], as line 273 applies it to
    [info.get('marketCap', 0)].  The embedding keeps the info values as text
    and does not tell a number from anything else, so the outcome is a
    parameter: the grouped digits for a number, and the [TypeError] or
    [ValueError] that Python raises for [None], for a [str] and for any
    other value that does not take the format. *)
Variable format_grouped : string -> outcome string.

(** The block under [if data['info']:], lines 269-274.  The f-string of
    line 273 is evaluated, and may raise, before [st.write] is called. *)
Definition quick_stats_entry (symbol : string) (data : StockSnapshot)
  : M unit :=
  if Py.truthy_list (info data) then
    st_expander (symbol ++ " Info") ;;
    let info := info data in
    st_write ("**Company:** " ++ Py.get "longName" "N/A" info) ;;
    st_write ("**Sector:** " ++ Py.get "sector" "N/A" info) ;;
    market_cap <- call (match Py.dict_get "marketCap" info with
                        | Some v => format_grouped v
                        | None => Ret "0"
                        end) ;;
    st_write ("**Market Cap:** $" ++ market_cap) ;;
    st_write ("**P/E Ratio:** " ++ Py.get "forwardPE" "N/A" info)
  else ret tt.

(** The block under [with col2:], lines 263-274.  No [try] surrounds it:
    what line 273 raises ends the run of the script. *)
Definition col2 (selected_stocks : list string)
  (stock_data : option (Py.dict StockSnapshot)) : M unit :=
  st_header "Quick Stats" ;;
  if Py.truthy_list selected_stocks then
    match stock_data with
    | Some stock_data =>
        if Py.truthy_list stock_data then
          for_each stock_data
            (fun _ item => quick_stats_entry (fst item) (snd item))
            tt
        else ret tt
    | None => call (Raise "name 'stock_data' is not defined")
    end
  else ret tt.

(** [main()], lines 153-342.  The history panel of lines 345-354 is
    [history_panel] below; it and the footer come after the last statement
    that reads or writes the session. *)
Definition main (w : widgets) : M unit :=
  st_markdown ("<h1 class=" ++ dquote ++ "main-header" ++ dquote
                 ++ ">AI Financial Advisor</h1>") ;;
  st_markdown "**Powered by Google Gemini & Advanced Financial Analysis Tools**" ;;
  st_header "🔧 Configuration" ;;
  initialize_agent (init_clicked w) ;;
  st_header "📊 Stock Selection" ;;
  let selected_stocks := select_stocks (multiselect w) (custom_stocks w) in
  st_header "📋 Analysis Options" ;;
  stock_data <- col1 selected_stocks ;;
  col2 selected_stocks stock_data ;;
  st_header "AI Financial Analysis" ;;
  analysis_section selected_stocks (analysis_type w) (custom_query w)
    (run_clicked w).

(** Running a computation from a machine state. *)
Definition run {A} (c : M A) (m : machine) : outcome A * machine := c m.

End App.

(** ** The history panel

    Lines 345-354 of [main] read the history the session holds at the end
    of the run and draw its last records.  What the panel puts on the page
    is kept apart from [ui]: its widgets nest, and one label formats an
    integer. *)
Section HistoryPanel.

Context {num : Type}.

#[warnings="-register-all"]
Inductive panel_ui : Type :=
| panel_header (body : string)
| panel_markdown (body : @fstring num)
| panel_expander (label : string) (inner : list panel_ui)
(* an expander whose label is [f"{label}{n}"] *)
| panel_expander_numbered (label : string) (n : Z) (inner : list panel_ui)
| panel_divider.

(** [enumerate(l)] *)
Definition enumerate {A} (l : list A) : list (nat * A) :=
  combine (seq 0 (List.length l)) l.

(** The body of the loop, lines 350-354, for the whole history
    [analysis_history], the index [i] and the record [analysis]. *)
Definition history_entry (analysis_history : list (@AnalysisRecord num))
  (i : nat) (analysis : @AnalysisRecord num) : list panel_ui :=
  [ panel_markdown
      (txt ("**" ++ timestamp analysis ++ "** - "
                 ++ Py.join ", " (stocks analysis)));
    panel_markdown ([Lit "*Duration: "] ++ duration analysis ++ [Lit "*"]);
    panel_expander_numbered "View Analysis "
      (Z.of_nat (List.length analysis_history) - Z.of_nat i)
      [panel_markdown (txt (response analysis))];
    panel_divider ].

(** The records the loop of line 349 goes through, with their index:
    [enumerate(reversed(analysis_history[-5:]))]. *)
Definition history_rows (analysis_history : list (@AnalysisRecord num))
  : list (nat * @AnalysisRecord num) :=
  enumerate (rev (Py.slice_last 5 analysis_history)).

(** The history panel, lines 345-354. *)
Definition history_panel (analysis_history : list (@AnalysisRecord num))
  : list panel_ui :=
  if Py.truthy_list analysis_history then
    [ panel_header "📚 Analysis History";
      panel_expander "View Previous Analyses"
        (flat_map
           (fun row => history_entry analysis_history (fst row) (snd row))
           (history_rows analysis_history)) ]
  else [].

End HistoryPanel.

(** ** Concrete worlds and machine states, over the rational instance *)
Module Demo.

Definition day (d : string) (c : Q) (v : Z) : @bar Q :=
  {| Date := d; Open := c; High := c; Low := c; Close := c; Volume := v |}.

Definition aapl : @DataFrame Q :=
  [day "2024-01-02" (inject_Z 100) 10; day "2024-01-03" (inject_Z 110) 20].

(** A market where AAPL has two days of history, ONE a single day, ZERO a
    last close of zero, EMPTY an empty history, and any other symbol is
    unknown; the agent answers every prompt. *)
Definition market : @world Q nat :=
  {| Agent_new := Ret 1;
     Ticker_history := fun symbol _ =>
       if String.eqb symbol "AAPL" then Ret aapl
       else if String.eqb symbol "ONE" then Ret [day "2024-01-03" (inject_Z 7) 5]
       else if String.eqb symbol "ZERO"
            then Ret [day "2024-01-02" (inject_Z 3) 5; day "2024-01-03" (inject_Z 0) 5]
       else if String.eqb symbol "EMPTY" then Ret []
       else Raise "No data found, symbol may be delisted";
     Ticker_info := fun symbol => Ret [("longName", symbol)];
     Agent_run := fun _ _ => Ret "Hold.";
     time_at := fun n => inject_Z (Z.of_nat n);
     now_at := fun _ => "2024-01-03 10:00:00" |}.

(** Every outside service out of reach. *)
Definition outage : @world Q nat :=
  {| Agent_new := Raise "GOOGLE_API_KEY not set";
     Ticker_history := fun _ _ => Raise "network unreachable";
     Ticker_info := fun _ => Raise "network unreachable";
     Agent_run := fun _ _ => Raise "quota exceeded";
     time_at := time_at market;
     now_at := now_at market |}.

(** First page load: no agent, no history. *)
Definition fresh : @machine Q nat :=
  {| session := {| agent := None; analysis_history := [] |};
     page := [];
     clock := 0 |}.

(** A session whose agent has been initialised. *)
Definition ready : @machine Q nat :=
  {| session := {| agent := Some 1; analysis_history := [] |};
     page := [];
     clock := 0 |}.

(** A history of [n] days, closes 1..n and volumes 1..n. *)
Definition days (n : nat) : @DataFrame Q :=
  map (fun i => day "d" (inject_Z (Z.of_nat i)) (Z.of_nat i)) (seq 1 n).

Definition snap (hist : @DataFrame Q) : @StockSnapshot Q :=
  {| history := hist; info := [];
     current_price := match rev hist with b :: _ => Some (Close b) | [] => None end |}.

(** A snapshot dictionary: a long history, a short one and an empty one. *)
Definition portfolio : Py.dict (@StockSnapshot Q) :=
  [("LONG", snap (days 200)); ("AAPL", snap aapl); ("EMPTY", snap [])].

(** The snapshot [get_stock_data] stores for [symbol] in [market], given
    its history. *)
Definition stored (symbol : string) (hist : @DataFrame Q) : @StockSnapshot Q :=
  {| history := hist; info := [("longName", symbol)];
     current_price := match rev hist with b :: _ => Some (Close b) | [] => None end |}.


(** [format(v, ',.0f')] on the info values of these worlds, none of which
    is a number: [None] and the names, which are [str]. *)
Definition format_grouped (v : string) : outcome string :=
  if String.eqb v "None"
  then Raise "unsupported format string passed to NoneType.__format__"
  else Raise "Unknown format code 'f' for object of type 'str'".

(** A press of Run Analysis on the selection AAPL. *)
Definition press_run : widgets :=
  {| init_clicked := false;
     multiselect := ["AAPL"];
     custom_stocks := EmptyString;
     analysis_type := QuickComparison;
     custom_query := EmptyString;
     run_clicked := true |}.

End Demo.

(** ** Vocabulary of the statements *)
Module Spec.

(** [c in s] *)
Fixpoint mem_char (c : ascii) (s : string) : bool :=
  match s with
  | EmptyString => false
  | String a s' => Ascii.eqb a c || mem_char c s'
  end.

Fixpoint all_space (s : string) : bool :=
  match s with
  | EmptyString => true
  | String a s' => Py.isspace a && all_space s'
  end.

Definition leading_space (s : string) : bool :=
  match s with
  | EmptyString => false
  | String a _ => Py.isspace a
  end.

Fixpoint trailing_space (s : string) : bool :=
  match s with
  | EmptyString => false
  | String a EmptyString => Py.isspace a
  | String _ s' => trailing_space s'
  end.

Fixpoint has_lower (s : string) : bool :=
  match s with
  | EmptyString => false
  | String a s' => Py.islower a || has_lower s'
  end.

(** A ticker as the selection stores it: nothing to strip, nothing to
    uppercase. *)
Definition normalized (t : string) : Prop :=
  leading_space t = false /\ trailing_space t = false /\ has_lower t = false.

(** The [name] of a trace. *)
Definition trace_name {num} (t : @trace num) : string :=
  match t with
  | Scatter _ _ _ name _ => name
  | Bar _ _ name => name
  end.

(** The traces of a figure that carry the name [symbol]. *)
Definition series_of {num} (symbol : string) (fig : @Figure num)
  : list (@trace num) :=
  filter (fun t => String.eqb (trace_name t) symbol) (traces fig).

(** The number of points a trace plots. *)
Definition points {num} (t : @trace num) : nat :=
  match t with
  | Scatter _ y _ _ _ => List.length y
  | Bar _ y _ => List.length y
  end.

(** The machine with [us] added at the end of the page. *)
Definition with_page {num Agent} (m : @machine num Agent) (us : list ui)
  : machine Agent :=
  {| session := session m; page := page m ++ us; clock := clock m |}.

(** The warning [get_stock_data] shows for a symbol whose fetch raised [e]. *)
Definition fetch_warning {num} (symbol : string) (e : exn) : @ui num :=
  st_warning_ ("Could not fetch data for " ++ symbol ++ ": " ++ e).

(** One warning per failed symbol, in the order of the symbols. *)
Definition fetch_warnings {num Agent} (W : @world num Agent)
  (period : string) (symbols : list string) : list (@ui num) :=
  flat_map
    (fun symbol =>
       match fetch_symbol W symbol period with
       | Ret _ => []
       | Raise e => [fetch_warning symbol e]
       end)
    symbols.

(** The dictionary after the symbols have been gone through, from [data]. *)
Definition fetched {num Agent} (W : @world num Agent) (period : string)
  (data : Py.dict StockSnapshot) (symbols : list string)
  : Py.dict (@StockSnapshot num) :=
  fold_left
    (fun data symbol =>
       match fetch_symbol W symbol period with
       | Ret snapshot => Py.dict_set symbol snapshot data
       | Raise _ => data
       end)
    symbols data.

(** The price series of a symbol with a non-empty history. *)
Definition price_series {num} (symbol : string) (data : @StockSnapshot num)
  : @trace num :=
  Scatter (map Date (history data)) (map Close (history data)) "lines" symbol 2.

(** The volume series of a symbol with a non-empty history. *)
Definition volume_series {num} (symbol : string) (data : @StockSnapshot num)
  : @trace num :=
  Bar (Py.slice_last 30 (map Date (history data)))
      (Py.slice_last 30 (map Volume (history data)))
      symbol.

(** The sentence "a symbol whose fetch completes with an empty history is
    left out of the result", for the symbols [T] and the period [P]. *)
Definition omits_empty_history {num Agent} (W : @world num Agent)
  (T : list string) (P : string) : Prop :=
  forall symbol data m m',
    In symbol T ->
    Ticker_history W symbol P = Ret [] ->
    run (get_stock_data W T P) m = (Ret data, m') ->
    ~ In symbol (Py.keys data).

(** The sentence "with fewer than two points in its history, a symbol's
    card shows the price alone", for one snapshot. *)
Definition price_only_below_two_points {num} {F : Float64 num} (Agent : Type)
  (data : @StockSnapshot num) : Prop :=
  List.length (history data) < 2 ->
  forall (i : nat) (symbol : string) (m : @machine num Agent),
  exists value,
    page (snd (run (metric_card i symbol data) m))
    = page m ++ [st_metric_ i symbol value None].

(** The items the chart builders draw: those with a non-empty history. *)
Definition has_history {num} (item : string * @StockSnapshot num) : bool :=
  negb (empty (history (snd item))).

(** The record a successful analysis run appends, from the machine state
    [m] the run starts in. *)
Definition analysis_record {num} {F : Float64 num} {Agent}
  (W : @world num Agent) (m : @machine num Agent)
  (selected_stocks : list string) (query response : string)
  : @AnalysisRecord num :=
  {| timestamp := now_at W (S (S (clock m)));
     stocks := selected_stocks;
     query := query;
     response := response;
     duration := [Fixed false 2 (fsub (time_at W (S (clock m)))
                                      (time_at W (clock m)));
                  Lit "s"] |}.

(** The sentence "in Custom Query mode with an empty free-text, no analysis
    runs": pressing Run Analysis leaves the history as it was. *)
Definition empty_custom_query_runs_nothing {num} {F : Float64 num} {Agent}
  (W : @world num Agent) (selected_stocks : list string)
  (m : @machine num Agent) : Prop :=
  analysis_history
    (session (snd (run (analysis_section W selected_stocks CustomQuery "" true) m)))
  = analysis_history (session m).

(** The Run Analysis button as drawn for a non-empty selection. *)
Definition run_button {num} : @ui num := st_button_ "🔍 Run Analysis" false.

(** A computation that always returns and only adds to the page. *)
Definition page_only {num Agent A} (c : @M num Agent A) : Prop :=
  forall m, exists a us, c m = (Ret a, with_page m us).


(** [list(dict.fromkeys(l))]: the items of [l] without repetition, each at
    the place of its first occurrence. *)
Fixpoint dedup (l : list string) : list string :=
  match l with
  | [] => []
  | x :: l' => x :: filter (fun y => negb (String.eqb y x)) (dedup l')
  end.

(** Whether the fetch of a symbol returns. *)
Definition fetch_ok {num Agent} (W : @world num Agent) (period symbol : string)
  : bool :=
  match fetch_symbol W symbol period with
  | Ret _ => true
  | Raise _ => false
  end.

(** The numbered expanders of a list of panel widgets: their number and
    what they hold. *)
Fixpoint numbered {num} (items : list (@panel_ui num))
  : list (Z * list (@panel_ui num)) :=
  match items with
  | [] => []
  | panel_expander_numbered _ n inner :: items' => (n, inner) :: numbered items'
  | _ :: items' => numbered items'
  end.

(** A text that holds blanks and commas only. *)
Fixpoint blank_or_comma (s : string) : bool :=
  match s with
  | EmptyString => true
  | String a s' => (Py.isspace a || Ascii.eqb a ",") && blank_or_comma s'
  end.

End Spec.

(** ** Facts about the string functions *)
Module PyFacts.
Import Py Spec.

Lemma split_not_nil (sep : ascii) (s : string) : split sep s <> [].
Proof.
  destruct s as [|c s]; simpl; [discriminate|].
  destruct (Ascii.eqb c sep); [discriminate|].
  destruct (split sep s); discriminate.
Qed.



(** No piece contains the separator. *)
Lemma split_no_sep (sep : ascii) (s : string) :
  Forall (fun p => mem_char sep p = false) (split sep s).
Proof.
  induction s as [|c s IH]; simpl.
  - constructor; [reflexivity | constructor].
  - destruct (Ascii.eqb c sep) eqn:E.
    + constructor; [reflexivity | exact IH].
    + destruct (split sep s) as [|p ps].
      * constructor; [simpl; now rewrite E | constructor].
      * inversion IH; subst. constructor; [simpl; now rewrite E | assumption].
Qed.

Lemma lstrip_leading (s : string) : leading_space (lstrip s) = false.
Proof.
  induction s as [|c s IH]; simpl; [reflexivity|].
  destruct (isspace c) eqn:E; [exact IH | simpl; exact E].
Qed.

Lemma lstrip_prefix (s : string) :
  exists l, s = (l ++ lstrip s)%string /\ all_space l = true.
Proof.
  induction s as [|c s [l [Hs Hl]]]; simpl.
  - exists EmptyString. split; reflexivity.
  - destruct (isspace c) eqn:E.
    + exists (String c l). simpl. rewrite E, Hl. split; [now rewrite <- Hs | reflexivity].
    + exists EmptyString. split; reflexivity.
Qed.

Lemma rstrip_trailing (s : string) : trailing_space (rstrip s) = false.
Proof.
  induction s as [|c s IH]; simpl; [reflexivity|].
  destruct (rstrip s) as [|d r] eqn:E.
  - destruct (isspace c) eqn:Ec; simpl; [reflexivity | exact Ec].
  - exact IH.
Qed.

Lemma rstrip_suffix (s : string) :
  exists r, s = (rstrip s ++ r)%string /\ all_space r = true.
Proof.
  induction s as [|c s [r [Hs Hr]]]; simpl.
  - exists EmptyString. split; reflexivity.
  - destruct (rstrip s) as [|d t] eqn:E.
    + destruct (isspace c) eqn:Ec.
      * exists (String c r). simpl in *. rewrite Ec, Hr.
        split; [now rewrite <- Hs | reflexivity].
      * exists r. simpl in *. split; [now rewrite <- Hs | exact Hr].
    + exists r. split; [simpl in *; now rewrite <- Hs | exact Hr].
Qed.

Lemma rstrip_leading (s : string) :
  leading_space s = false -> leading_space (rstrip s) = false.
Proof.
  destruct s as [|c s]; simpl; [reflexivity|].
  intros Hc. destruct (rstrip s); [rewrite Hc|]; simpl; auto.
Qed.

(** [strip] removes white space at both ends and nothing else. *)
Lemma strip_spec (s : string) :
  (exists l r, s = (l ++ strip s ++ r)%string
               /\ all_space l = true /\ all_space r = true)
  /\ leading_space (strip s) = false
  /\ trailing_space (strip s) = false.
Proof.
  unfold strip. split; [|split].
  - destruct (lstrip_prefix s) as [l [Hs Hl]].
    destruct (rstrip_suffix (lstrip s)) as [r [Ht Hr]].
    exists l, r. split; [|split; assumption].
    now rewrite <- Ht.
  - apply rstrip_leading, lstrip_leading.
  - apply rstrip_trailing.
Qed.

Lemma isspace_upper_char (c : ascii) : isspace (upper_char c) = isspace c.
Proof. destruct c as [[] [] [] [] [] [] [] []]; reflexivity. Qed.

Lemma islower_upper_char (c : ascii) : islower (upper_char c) = false.
Proof. destruct c as [[] [] [] [] [] [] [] []]; reflexivity. Qed.

Lemma upper_leading (s : string) : leading_space (upper s) = leading_space s.
Proof. destruct s; simpl; [reflexivity | apply isspace_upper_char]. Qed.

Lemma upper_trailing (s : string) : trailing_space (upper s) = trailing_space s.
Proof.
  induction s as [|c s IH]; [reflexivity|].
  destruct s as [|d s]; [apply isspace_upper_char | exact IH].
Qed.

Lemma upper_no_lower (s : string) : has_lower (upper s) = false.
Proof.
  induction s as [|c s IH]; simpl; [reflexivity|].
  now rewrite islower_upper_char, IH.
Qed.

Lemma upper_strip_normalized (s : string) : normalized (upper (strip s)).
Proof.
  destruct (strip_spec s) as [_ [Hl Ht]].
  repeat split.
  - now rewrite upper_leading.
  - now rewrite upper_trailing.
  - apply upper_no_lower.
Qed.

End PyFacts.

(** ** Facts about dictionaries *)
Module DictFacts.
Import Py.

Lemma keys_dict_set {V} (k k' : string) (v : V) (d : dict V) :
  In k' (keys (dict_set k v d)) <-> k' = k \/ In k' (keys d).
Proof.
  unfold keys. induction d as [|[k0 v0] d IH]; simpl.
  - intuition.
  - destruct (String.eqb k k0) eqn:E; simpl.
    + apply String.eqb_eq in E. subst k0. intuition.
    + rewrite IH. intuition.
Qed.

Lemma NoDup_dict_set {V} (k : string) (v : V) (d : dict V) :
  NoDup (keys d) -> NoDup (keys (dict_set k v d)).
Proof.
  induction d as [|[k0 v0] d IH]; simpl; intros Hd.
  - constructor; [intros [] | constructor].
  - inversion Hd as [|? ? Hnin Hd']; subst.
    destruct (String.eqb k k0) eqn:E; simpl.
    + apply String.eqb_eq in E. subst k0. constructor; assumption.
    + constructor; [|apply IH; assumption].
      intros Hin. apply keys_dict_set in Hin. destruct Hin as [->|Hin].
      * rewrite String.eqb_refl in E. discriminate.
      * contradiction.
Qed.

Lemma dict_get_set {V} (k k' : string) (v : V) (d : dict V) :
  dict_get k' (dict_set k v d)
  = if String.eqb k' k then Some v else dict_get k' d.
Proof.
  induction d as [|[k0 v0] d IH]; simpl.
  - reflexivity.
  - destruct (String.eqb k k0) eqn:E; simpl.
    + apply String.eqb_eq in E. subst k0.
      destruct (String.eqb k' k); reflexivity.
    + rewrite IH. destruct (String.eqb k' k0) eqn:E0; [|reflexivity].
      apply String.eqb_eq in E0. subst k0.
      destruct (String.eqb k' k) eqn:E1; [|reflexivity].
      apply String.eqb_eq in E1. subst k'.
      rewrite String.eqb_refl in E. discriminate.
Qed.

Lemma dict_get_not_in {V} (k : string) (d : dict V) :
  ~ In k (keys d) -> dict_get k d = None.
Proof.
  induction d as [|[k0 v0] d IH]; simpl; intros Hnin; [reflexivity|].
  destruct (String.eqb k k0) eqn:E.
  - apply String.eqb_eq in E. subst k0. exfalso. apply Hnin. now left.
  - apply IH. intros Hin. apply Hnin. now right.
Qed.

Lemma dict_get_in {V} (k : string) (v : V) (d : dict V) :
  dict_get k d = Some v -> In k (keys d).
Proof.
  induction d as [|[k0 v0] d IH]; simpl; [discriminate|].
  destruct (String.eqb k k0) eqn:E.
  - apply String.eqb_eq in E. subst k0. now left.
  - intros Hg. right. now apply IH.
Qed.

Lemma length_dict_set {V} (k : string) (v : V) (d : dict V) :
  List.length (dict_set k v d) <= S (List.length d).
Proof.
  induction d as [|[k0 v0] d IH]; simpl; [lia|].
  destruct (String.eqb k k0); simpl; lia.
Qed.

End DictFacts.

(** ** The market-data fetcher *)
Section Fetcher.

Context {num : Type}.
Variable Agent : Type.
Variable W : @world num Agent.

Import Py Spec DictFacts.

Lemma with_page_nil (m : @machine num Agent) : with_page m [] = m.
Proof. destruct m. unfold with_page. simpl. now rewrite app_nil_r. Qed.

Lemma with_page_app (m : @machine num Agent) (us vs : list ui) :
  with_page (with_page m us) vs = with_page m (us ++ vs).
Proof. unfold with_page. simpl. now rewrite app_assoc. Qed.

(** One turn of the loop: the snapshot is stored, or the warning is shown
    and the dictionary is left as it was; the turn itself never raises. *)
Lemma get_stock_data_step_run (P : string) (data : dict StockSnapshot)
  (symbol : string) (m : machine Agent) :
  run (get_stock_data_step W P data symbol) m
  = match fetch_symbol W symbol P with
    | Ret snapshot => (Ret (dict_set symbol snapshot data), m)
    | Raise e => (Ret data, with_page m [fetch_warning symbol e])
    end.
Proof.
  unfold run, get_stock_data_step, try_except, bind, call, ret.
  destruct (fetch_symbol W symbol P); reflexivity.
Qed.

Lemma for_each_get_stock_data_step (P : string) (symbols : list string) :
  forall (data : dict StockSnapshot) (m : machine Agent),
    run (for_each symbols (get_stock_data_step W P) data) m
    = (Ret (fetched W P data symbols),
       with_page m (fetch_warnings W P symbols)).
Proof.
  induction symbols as [|symbol symbols IH]; intros data m.
  - simpl. unfold run, ret. now rewrite with_page_nil.
  - pose proof (get_stock_data_step_run P data symbol m) as Hstep.
    unfold run in *. simpl. unfold bind at 1. rewrite Hstep.
    unfold fetched, fetch_warnings. simpl.
    destruct (fetch_symbol W symbol P) as [snapshot|e].
    + apply IH.
    + rewrite IH, with_page_app. reflexivity.
Qed.

Lemma fetched_keys (P : string) (symbols : list string) :
  forall (data : dict StockSnapshot) (k : string),
    In k (keys (fetched W P data symbols))
    <-> In k (keys data)
        \/ (In k symbols /\ exists snapshot, fetch_symbol W k P = Ret snapshot).
Proof.
  induction symbols as [|symbol symbols IH]; intros data k.
  - simpl. split; [auto | intros [H|[[] _]]; exact H].
  - unfold fetched in *. simpl.
    destruct (fetch_symbol W symbol P) as [snapshot|e] eqn:E; rewrite IH.
    + rewrite keys_dict_set. split.
      * intros [[->|H]|[H1 H2]]; eauto.
      * intros [H|[[->|H1] H2]]; auto.
    + split.
      * intros [H|[H1 H2]]; auto.
      * intros [H|[[->|H1] [snapshot H2]]]; eauto. congruence.
Qed.

Lemma fetched_NoDup (P : string) (symbols : list string) :
  forall data : dict StockSnapshot,
    NoDup (keys data) -> NoDup (keys (fetched W P data symbols)).
Proof.
  induction symbols as [|symbol symbols IH]; intros data Hd; [exact Hd|].
  unfold fetched in *. simpl.
  destruct (fetch_symbol W symbol P); apply IH; [apply NoDup_dict_set|]; exact Hd.
Qed.

Lemma fetched_get_stable (P : string) (symbols : list string) :
  forall (data : dict StockSnapshot) (k : string) (snapshot : StockSnapshot),
    fetch_symbol W k P = Ret snapshot ->
    dict_get k data = Some snapshot ->
    dict_get k (fetched W P data symbols) = Some snapshot.
Proof.
  induction symbols as [|symbol symbols IH]; intros data k snapshot Hk Hg;
    [exact Hg|].
  unfold fetched in *. simpl.
  destruct (fetch_symbol W symbol P) as [s'|e] eqn:E; apply IH; auto.
  rewrite dict_get_set. destruct (String.eqb k symbol) eqn:Ek; [|exact Hg].
  apply String.eqb_eq in Ek. subst symbol. congruence.
Qed.

Lemma fetched_get (P : string) (symbols : list string) :
  forall (data : dict StockSnapshot) (k : string) (snapshot : StockSnapshot),
    In k symbols ->
    fetch_symbol W k P = Ret snapshot ->
    dict_get k (fetched W P data symbols) = Some snapshot.
Proof.
  induction symbols as [|symbol symbols IH]; intros data k snapshot Hin Hk;
    [destruct Hin|].
  destruct Hin as [->|Hin].
  - unfold fetched. simpl. rewrite Hk.
    apply fetched_get_stable; [exact Hk|].
    rewrite dict_get_set, String.eqb_refl. reflexivity.
  - unfold fetched in *. simpl.
    destruct (fetch_symbol W symbol P); now apply IH.
Qed.

Lemma fetched_all_failed (P : string) (symbols : list string) :
  forall data : dict StockSnapshot,
    (forall s, In s symbols -> exists e, fetch_symbol W s P = Raise e) ->
    fetched W P data symbols = data.
Proof.
  induction symbols as [|symbol symbols IH]; intros data Hall; [reflexivity|].
  unfold fetched in *. simpl.
  destruct (Hall symbol (or_introl eq_refl)) as [e He]. rewrite He.
  apply IH. intros s Hs. apply Hall. now right.
Qed.

(** The dictionary never has more entries than symbols were asked for, so
    the column [cols[i]] of line 237 always exists. *)
Lemma fetched_length (P : string) (symbols : list string) :
  forall data : dict StockSnapshot,
    List.length (fetched W P data symbols)
    <= List.length data + List.length symbols.
Proof.
  induction symbols as [|symbol symbols IH]; intros data; simpl; [lia|].
  unfold fetched in *. simpl.
  destruct (fetch_symbol W symbol P) as [snapshot|e].
  - specialize (IH (dict_set symbol snapshot data)).
    pose proof (length_dict_set symbol snapshot data). lia.
  - specialize (IH data). lia.
Qed.

Lemma fetch_warnings_in (P : string) (symbols : list string) (s : string)
  (e : exn) :
  In s symbols -> fetch_symbol W s P = Raise e ->
  In (fetch_warning s e) (fetch_warnings W P symbols).
Proof.
  intros Hin He. unfold fetch_warnings. apply in_flat_map.
  exists s. split; [exact Hin|]. rewrite He. now left.
Qed.

(** What [fetch_symbol] returns for a history that came back empty. *)
Lemma fetch_symbol_empty (P symbol : string) (inf : dict string) :
  Ticker_history W symbol P = Ret [] ->
  Ticker_info W symbol = Ret inf ->
  fetch_symbol W symbol P
  = Ret {| history := []; info := inf; current_price := None |}.
Proof. intros Hh Hi. unfold fetch_symbol. rewrite Hh. simpl. now rewrite Hi. Qed.

(** C1.  For every list of symbols and every period, [get_stock_data]
    returns (it never raises) a dictionary whose keys are among the symbols
    asked for: exactly the symbols whose fetch did not raise.  Each fetch
    that raises is caught and shows one warning that names the symbol, the
    loop goes on with the next symbol, nothing else of the machine changes,
    and when every fetch raises the dictionary is empty. *)
Theorem get_stock_data_isolates_failures (T : list string) (P : string)
  (m : machine Agent) :
  exists data : dict StockSnapshot,
    run (get_stock_data W T P) m
    = (Ret data, with_page m (fetch_warnings W P T))
    /\ incl (keys data) T
    /\ NoDup (keys data)
    /\ (forall s, In s (keys data)
                  <-> In s T /\ exists snapshot, fetch_symbol W s P = Ret snapshot)
    /\ (forall s e, In s T -> fetch_symbol W s P = Raise e ->
                    In (st_warning_ ("Could not fetch data for " ++ s ++ ": " ++ e))
                       (page (snd (run (get_stock_data W T P) m))))
    /\ ((forall s, In s T -> exists e, fetch_symbol W s P = Raise e) ->
        data = []).
Proof.
  exists (fetched W P [] T).
  assert (Hrun : run (get_stock_data W T P) m
                 = (Ret (fetched W P [] T), with_page m (fetch_warnings W P T)))
    by apply for_each_get_stock_data_step.
  assert (Hkeys : forall s, In s (keys (fetched W P [] T))
                  <-> In s T /\ exists snapshot, fetch_symbol W s P = Ret snapshot).
  { intros s. rewrite fetched_keys. simpl. tauto. }
  split; [exact Hrun|].
  split; [intros s Hs; now apply Hkeys in Hs|].
  split; [apply fetched_NoDup; constructor|].
  split; [exact Hkeys|].
  split; [|apply fetched_all_failed].
  intros s e Hin He. rewrite Hrun. simpl. apply in_or_app. right.
  now apply fetch_warnings_in.
Qed.

(** C4, as amended.  A symbol whose fetch completes with an empty history
    is not left out: it is a key of the result, and its snapshot holds the
    empty history, the info and no current price. *)
Theorem empty_history_symbol_is_kept (T : list string) (P s : string)
  (inf : dict string) (m : machine Agent) :
  In s T ->
  Ticker_history W s P = Ret [] ->
  Ticker_info W s = Ret inf ->
  exists data m',
    run (get_stock_data W T P) m = (Ret data, m')
    /\ In s (keys data)
    /\ dict_get s data
       = Some {| history := []; info := inf; current_price := None |}.
Proof.
  intros Hin Hh Hi.
  pose proof (fetch_symbol_empty P s Hh Hi) as Hf.
  exists (fetched W P [] T), (with_page m (fetch_warnings W P T)).
  split; [apply for_each_get_stock_data_step|].
  pose proof (fetched_get P T [] s Hin Hf) as Hg.
  split; [eapply dict_get_in; exact Hg | exact Hg].
Qed.

End Fetcher.

(** ** The chart builders *)
Section Charts.

Context {num : Type}.

Import Py Spec DictFacts.

Lemma add_traces (f : string -> @StockSnapshot num -> @trace num)
  (stock_data : dict (@StockSnapshot num)) :
  forall fig : list (@trace num),
    fold_left
      (fun fig item =>
         let '(symbol, data) := item in
         if negb (empty (history data)) then fig ++ [f symbol data] else fig)
      stock_data fig
    = fig ++ map (fun item => f (fst item) (snd item))
                 (filter has_history stock_data).
Proof.
  induction stock_data as [|[symbol data] sd IH]; intros fig; simpl.
  - now rewrite app_nil_r.
  - rewrite IH. unfold has_history at 2. simpl.
    destruct (negb (empty (history data))); simpl;
      [now rewrite <- app_assoc | reflexivity].
Qed.

(** The price chart: the series of the symbols with a history, in the
    order of the dictionary. *)
Lemma create_price_chart_traces (stock_data : dict (@StockSnapshot num)) :
  traces (create_price_chart stock_data)
  = map (fun item => price_series (fst item) (snd item))
        (filter has_history stock_data).
Proof. unfold create_price_chart. simpl. now rewrite add_traces. Qed.

Lemma create_volume_chart_traces (stock_data : dict (@StockSnapshot num)) :
  traces (create_volume_chart stock_data)
  = map (fun item => volume_series (fst item) (snd item))
        (filter has_history stock_data).
Proof. unfold create_volume_chart. simpl. now rewrite add_traces. Qed.

Lemma named_series_absent (f : string -> @StockSnapshot num -> @trace num)
  (s : string) (stock_data : dict (@StockSnapshot num)) :
  (forall k d, trace_name (f k d) = k) ->
  ~ In s (keys stock_data) ->
  filter (fun t => String.eqb (trace_name t) s)
         (map (fun item => f (fst item) (snd item))
              (filter has_history stock_data)) = [].
Proof.
  intros Hname. induction stock_data as [|[k d] sd IH]; intros Hnin;
    [reflexivity|].
  simpl in *. assert (Hk : String.eqb k s = false).
  { apply String.eqb_neq. intros ->. apply Hnin. now left. }
  assert (Hrest : ~ In s (keys sd)) by (intros H; apply Hnin; now right).
  destruct (has_history (k, d)); simpl; [rewrite Hname, Hk|]; now apply IH.
Qed.

Lemma named_series (f : string -> @StockSnapshot num -> @trace num)
  (s : string) (stock_data : dict (@StockSnapshot num)) :
  (forall k d, trace_name (f k d) = k) ->
  NoDup (keys stock_data) ->
  filter (fun t => String.eqb (trace_name t) s)
         (map (fun item => f (fst item) (snd item))
              (filter has_history stock_data))
  = match dict_get s stock_data with
    | Some data => if empty (history data) then [] else [f s data]
    | None => []
    end.
Proof.
  intros Hname. induction stock_data as [|[k d] sd IH]; intros Hnd;
    [reflexivity|].
  simpl in Hnd. inversion Hnd as [|? ? Hnin Hnd']; subst.
  simpl dict_get. destruct (String.eqb s k) eqn:E.
  - apply String.eqb_eq in E. subst k.
    simpl. unfold has_history at 1. simpl.
    destruct (empty (history d)); simpl.
    + now apply named_series_absent.
    + rewrite Hname, String.eqb_refl.
      now rewrite named_series_absent.
  - simpl. destruct (has_history (k, d)); simpl.
    + rewrite Hname, String.eqb_sym, E. now apply IH.
    + now apply IH.
Qed.

Lemma slice_last_length {A} (k : nat) (l : list A) :
  List.length (slice_last k l) = Nat.min k (List.length l).
Proof. unfold slice_last. rewrite length_skipn. lia. Qed.

Lemma slice_last_suffix {A} (k : nat) (l : list A) :
  l = firstn (List.length l - k) l ++ slice_last k l.
Proof. unfold slice_last. now rewrite firstn_skipn. Qed.

(** C6.  In a snapshot dictionary, a symbol with a non-empty history has
    exactly one line series in the price chart, its closes over the whole
    history, and exactly one bar series in the volume chart, the last 30
    volumes of its history (all of them when there are fewer), whatever the
    length of the history; a symbol with an empty history, or not in the
    dictionary, has no series in either chart. *)
Theorem charts_one_series_per_symbol
  (stock_data : dict (@StockSnapshot num)) (s : string) :
  NoDup (keys stock_data) ->
  match dict_get s stock_data with
  | Some data =>
      if empty (history data)
      then series_of s (create_price_chart stock_data) = []
           /\ series_of s (create_volume_chart stock_data) = []
      else series_of s (create_price_chart stock_data)
           = [Scatter (map Date (history data)) (map Close (history data))
                      "lines" s 2]
           /\ (exists older recent,
                 map Volume (history data) = older ++ recent
                 /\ List.length recent = Nat.min 30 (List.length (history data))
                 /\ series_of s (create_volume_chart stock_data)
                    = [Bar (slice_last 30 (map Date (history data))) recent s])
  | None =>
      series_of s (create_price_chart stock_data) = []
      /\ series_of s (create_volume_chart stock_data) = []
  end.
Proof.
  intros Hnd. unfold series_of.
  rewrite create_price_chart_traces, create_volume_chart_traces.
  rewrite !named_series by (reflexivity || assumption).
  destruct (dict_get s stock_data) as [data|]; [|split; reflexivity].
  destruct (empty (history data)); [split; reflexivity|].
  split; [reflexivity|].
  exists (firstn (List.length (map Volume (history data)) - 30)
                 (map Volume (history data))),
         (slice_last 30 (map Volume (history data))).
  split; [apply slice_last_suffix|].
  split; [|reflexivity].
  now rewrite slice_last_length, length_map.
Qed.

End Charts.

(** ** The metric cards *)
Section Metrics.

Context {num : Type} {F : Float64 num}.
Variable Agent : Type.
Variable W : @world num Agent.

Import Py Spec.

Lemma iloc_last {A} (l : list A) (a : A) : iloc (l ++ [a]) (-1) = Ret a.
Proof.
  unfold iloc. rewrite length_app. simpl List.length.
  replace (-1 <? 0)%Z with true by reflexivity.
  replace (-1 + Z.of_nat (List.length l + 1))%Z with (Z.of_nat (List.length l))
    by lia.
  replace (0 <=? Z.of_nat (List.length l))%Z with true
    by (symmetry; apply Z.leb_le; lia).
  replace (Z.of_nat (List.length l) <? Z.of_nat (List.length l + 1))%Z with true
    by (symmetry; apply Z.ltb_lt; lia).
  simpl andb. cbv iota. rewrite Nat2Z.id.
  rewrite nth_error_app2 by lia. now rewrite Nat.sub_diag.
Qed.

Lemma iloc_prev {A} (l : list A) (a b : A) : iloc (l ++ [a; b]) (-2) = Ret a.
Proof.
  unfold iloc. rewrite length_app. simpl List.length.
  replace (-2 <? 0)%Z with true by reflexivity.
  replace (-2 + Z.of_nat (List.length l + 2))%Z with (Z.of_nat (List.length l))
    by lia.
  replace (0 <=? Z.of_nat (List.length l))%Z with true
    by (symmetry; apply Z.leb_le; lia).
  replace (Z.of_nat (List.length l) <? Z.of_nat (List.length l + 2))%Z with true
    by (symmetry; apply Z.ltb_lt; lia).
  simpl andb. cbv iota. rewrite Nat2Z.id.
  rewrite nth_error_app2 by lia. now rewrite Nat.sub_diag.
Qed.

Lemma iloc_prev_short {A} (l : list A) :
  List.length l < 2 ->
  iloc l (-2) = Raise "single positional indexer is out-of-bounds".
Proof.
  intros Hl. unfold iloc.
  replace (-2 <? 0)%Z with true by reflexivity.
  replace (0 <=? -2 + Z.of_nat (List.length l))%Z with false
    by (symmetry; apply Z.leb_gt; lia).
  reflexivity.
Qed.

(** The current price of a fetched snapshot is the last close of its
    history, and is absent when the history is empty. *)
Lemma fetch_symbol_current_price (P s : string) (data : StockSnapshot) :
  fetch_symbol W s P = Ret data ->
  (history data = [] /\ current_price data = None)
  \/ (exists older b, history data = older ++ [b]
                      /\ current_price data = Some (Close b)).
Proof.
  unfold fetch_symbol.
  destruct (Ticker_history W s P) as [hist|e]; simpl; [|discriminate].
  destruct (Ticker_info W s) as [inf|e]; simpl; [|discriminate].
  destruct hist as [|b0 hist].
  - simpl. intros H. injection H as <-. left. split; reflexivity.
  - destruct (exists_last (l := b0 :: hist)) as [older [b Hb]]; [discriminate|].
    rewrite Hb. replace (empty (older ++ [b])) with false
      by (destruct older; reflexivity).
    simpl negb. cbv iota. rewrite map_app. simpl map. rewrite iloc_last.
    simpl. intros H. injection H as <-. right. exists older, b. split; reflexivity.
Qed.

Lemma metric_card_nothing (i : nat) (s : string) (data : StockSnapshot)
  (m : machine Agent) :
  (current_price data = None
   \/ exists p, current_price data = Some p /\ truthy p = false) ->
  run (metric_card i s data) m = (Ret tt, m).
Proof.
  unfold run, metric_card. intros [->|[p [-> Hp]]]; [reflexivity|].
  now rewrite Hp.
Qed.

Lemma metric_card_price_only (i : nat) (s : string) (data : StockSnapshot)
  (p : num) (m : machine Agent) :
  current_price data = Some p -> truthy p = true ->
  List.length (history data) < 2 ->
  run (metric_card i s data) m
  = (Ret tt, with_page m [st_metric_ i s [Lit "$"; Fixed false 2 p] None]).
Proof.
  intros Hc Hp Hl. unfold run, metric_card. rewrite Hc, Hp.
  unfold try_except, bind, call.
  rewrite iloc_prev_short by now rewrite length_map.
  reflexivity.
Qed.

Lemma metric_card_with_change (i : nat) (s : string) (data : StockSnapshot)
  (p : num) (older : DataFrame) (a b : bar) (m : machine Agent) :
  current_price data = Some p -> truthy p = true ->
  history data = older ++ [a; b] ->
  run (metric_card i s data) m
  = (Ret tt,
     with_page m
       [st_metric_ i s [Lit "$"; Fixed false 2 p]
          (Some [Fixed true 2 (fsub p (Close a)); Lit " (";
                 Fixed true 1 (fmul (fdiv (fsub p (Close a)) (Close a))
                                    (of_int 100));
                 Lit "%)"])]).
Proof.
  intros Hc Hp Hh. unfold run, metric_card. rewrite Hc, Hp, Hh.
  unfold try_except, bind, call.
  rewrite map_app. simpl map. rewrite iloc_prev.
  reflexivity.
Qed.

(** C5, as amended.  For a fetched symbol whose last close is truthy: with
    one point in its history the card shows the price alone, to two
    decimals; with two or more points it shows the price and a change made
    of the last close minus the one before it, to two decimals, and of
    that difference divided by the close before it, times 100, to one
    decimal. *)
Theorem metric_card_day_change (P s : string) (data : StockSnapshot)
  (older : DataFrame) (b : bar) (i : nat) (m : machine Agent) :
  fetch_symbol W s P = Ret data ->
  history data = older ++ [b] ->
  truthy (Close b) = true ->
  (older = [] ->
   run (metric_card i s data) m
   = (Ret tt,
      with_page m [st_metric_ i s [Lit "$"; Fixed false 2 (Close b)] None]))
  /\ (forall older' a, older = older' ++ [a] ->
      run (metric_card i s data) m
      = (Ret tt,
         with_page m
           [st_metric_ i s [Lit "$"; Fixed false 2 (Close b)]
              (Some [Fixed true 2 (fsub (Close b) (Close a)); Lit " (";
                     Fixed true 1
                       (fmul (fdiv (fsub (Close b) (Close a)) (Close a))
                             (of_int 100));
                     Lit "%)"])])).
Proof.
  intros Hf Hh Ht.
  assert (Hc : current_price data = Some (Close b)).
  { destruct (fetch_symbol_current_price P s Hf) as [[He _]|[o [b' [Hh' Hc]]]].
    - rewrite He in Hh. destruct older; discriminate.
    - rewrite Hh in Hh'. apply app_inj_tail in Hh'. destruct Hh' as [_ <-].
      exact Hc. }
  split.
  - intros ->. apply metric_card_price_only; [exact Hc | exact Ht|].
    rewrite Hh. simpl. lia.
  - intros older' a ->. eapply metric_card_with_change; [exact Hc | exact Ht|].
    rewrite Hh, <- app_assoc. reflexivity.
Qed.

(** C10.  A card is rendered only when the current price is truthy: for a
    fetched symbol whose history is empty (no current price) or whose last
    close is exactly 0, the card block puts nothing on the page, not even
    the price alone; and whenever the block changes anything, the current
    price is present and truthy. *)
Theorem metric_card_needs_truthy_price (P s : string) (data : StockSnapshot)
  (i : nat) (m : machine Agent) :
  fetch_symbol W s P = Ret data ->
  ((history data = []
    \/ exists older b, history data = older ++ [b] /\ Close b = of_int 0) ->
   run (metric_card i s data) m = (Ret tt, m))
  /\ (run (metric_card i s data) m <> (Ret tt, m) ->
      exists p, current_price data = Some p /\ truthy p = true).
Proof.
  intros Hf. split.
  - intros Hcase. apply metric_card_nothing.
    destruct (fetch_symbol_current_price P s Hf) as [[He Hc]|[o [b' [Hh' Hc]]]].
    + now left.
    + destruct Hcase as [He|[older [b [Hh Hz]]]].
      * rewrite He in Hh'. destruct o; discriminate.
      * rewrite Hh in Hh'. apply app_inj_tail in Hh'. destruct Hh' as [_ <-].
        right. exists (Close b). split; [exact Hc|].
        rewrite Hz. apply truthy_zero.
  - intros Hrun. destruct (current_price data) as [p|] eqn:Hc.
    + destruct (truthy p) eqn:Hp.
      * exists p. split; [reflexivity | exact Hp].
      * exfalso. apply Hrun. apply metric_card_nothing. right. now exists p.
    + exfalso. apply Hrun. apply metric_card_nothing. now left.
Qed.

End Metrics.

(** ** The agent: initialisation and analysis runs *)
Section Analysis.

Context {num : Type} {F : Float64 num}.
Variable Agent : Type.
Variable W : @world num Agent.

Import Py Spec.

(** The [try] block: on an agent failure nothing was written but one clock
    reading; on success the record is appended after the results. *)
Lemma run_analysis_run (a : Agent) (sel : list string) (q : string)
  (m : machine Agent) :
  run (run_analysis W a sel q) m
  = match Agent_run W a q with
    | Ret content =>
        (Ret tt,
         {| session :=
              {| agent := agent (session m);
                 analysis_history :=
                   analysis_history (session m)
                   ++ [analysis_record W m sel q content] |};
            page :=
              page m
              ++ [st_markdown_ ("<div class=" ++ dquote ++ "analysis-section"
                                  ++ dquote ++ ">");
                  st_markdown_ "### 📋 Analysis Results";
                  st_markdown_ content;
                  st_markdown_ "</div>";
                  st_success_
                    [Lit "✅ Analysis completed in ";
                     Fixed false 2 (fsub (time_at W (S (clock m)))
                                         (time_at W (clock m)));
                     Lit " seconds"]];
            clock := S (S (clock m)) |})
    | Raise e =>
        (Raise e,
         {| session := session m; page := page m; clock := S (clock m) |})
    end.
Proof.
  unfold run, run_analysis, bind, time_time, call, st_markdown, st_success,
    history_append, datetime_now, emit, analysis_record.
  destruct (Agent_run W a q) as [content|e]; [|reflexivity].
  cbn [session page clock agent analysis_history].
  repeat rewrite <- app_assoc. reflexivity.
Qed.

Lemma analysis_section_pressed (a : Agent) (sel : list string)
  (mode : analysis_mode) (cq : string) (m : machine Agent) :
  agent (session m) = Some a ->
  sel <> [] ->
  run (analysis_section W sel mode cq true) m
  = try_except
      (run_analysis W a sel (compose_query mode sel cq))
      (fun e =>
         bind (st_error ("❌ Analysis failed: " ++ e))
              (fun _ => st_info "💡 Try reinitializing the agent or check your query."))
      (with_page m [run_button]).
Proof.
  intros Ha Hsel. destruct sel as [|t sel]; [congruence|].
  unfold run, analysis_section, bind at 1, get_agent. rewrite Ha.
  reflexivity.
Qed.

Lemma analysis_section_no_agent (sel : list string) (mode : analysis_mode)
  (cq : string) (clicked : bool) (m : machine Agent) :
  agent (session m) = None ->
  run (analysis_section W sel mode cq clicked) m
  = (Ret tt,
     with_page m
       [st_warning_ "⚠️ Please initialize the AI Agent in the sidebar first."]).
Proof.
  intros Ha. unfold run, analysis_section, bind, get_agent. rewrite Ha.
  reflexivity.
Qed.

Lemma analysis_section_answered (a : Agent) (sel : list string)
  (mode : analysis_mode) (cq content : string) (m : machine Agent) :
  agent (session m) = Some a ->
  sel <> [] ->
  Agent_run W a (compose_query mode sel cq) = Ret content ->
  fst (run (analysis_section W sel mode cq true) m) = Ret tt
  /\ session (snd (run (analysis_section W sel mode cq true) m))
     = {| agent := Some a;
          analysis_history :=
            analysis_history (session m)
            ++ [analysis_record W m sel (compose_query mode sel cq) content] |}.
Proof.
  intros Ha Hsel Hq. rewrite (@analysis_section_pressed a sel mode cq m Ha Hsel).
  unfold try_except.
  pose proof (run_analysis_run a sel (compose_query mode sel cq)
                (with_page m [run_button])) as Hrun.
  unfold run in Hrun. rewrite Hrun, Hq. simpl. rewrite Ha.
  split; reflexivity.
Qed.

Lemma analysis_section_failed (a : Agent) (sel : list string)
  (mode : analysis_mode) (cq : string) (e : exn) (m : machine Agent) :
  agent (session m) = Some a ->
  sel <> [] ->
  Agent_run W a (compose_query mode sel cq) = Raise e ->
  run (analysis_section W sel mode cq true) m
  = (Ret tt,
     {| session := session m;
        page := page m
                ++ [run_button;
                    st_error_ ("❌ Analysis failed: " ++ e);
                    st_info_ "💡 Try reinitializing the agent or check your query."];
        clock := S (clock m) |}).
Proof.
  intros Ha Hsel Hq. rewrite (@analysis_section_pressed a sel mode cq m Ha Hsel).
  unfold try_except.
  pose proof (run_analysis_run a sel (compose_query mode sel cq)
                (with_page m [run_button])) as Hrun.
  unfold run in Hrun. rewrite Hrun, Hq.
  unfold bind, st_error, st_info, emit, with_page. simpl.
  repeat rewrite <- app_assoc. reflexivity.
Qed.

(** C2.  With an agent present and a non-empty selection, a press of Run
    Analysis never raises and is all-or-nothing on the history: when the
    agent call raises, the error is shown and the session (agent and
    history) is exactly what it was; when the call returns, the history
    grows by exactly one record, which holds the selection, the prompt, the
    response text and the difference of the two clock readings taken
    around the call, to two decimals. *)
Theorem analysis_run_atomic (a : Agent) (sel : list string)
  (mode : analysis_mode) (cq : string) (m : machine Agent) :
  agent (session m) = Some a ->
  sel <> [] ->
  fst (run (analysis_section W sel mode cq true) m) = Ret tt
  /\ match Agent_run W a (compose_query mode sel cq) with
     | Raise e =>
         session (snd (run (analysis_section W sel mode cq true) m)) = session m
         /\ In (st_error_ ("❌ Analysis failed: " ++ e))
               (page (snd (run (analysis_section W sel mode cq true) m)))
     | Ret content =>
         agent (session (snd (run (analysis_section W sel mode cq true) m)))
         = Some a
         /\ analysis_history
              (session (snd (run (analysis_section W sel mode cq true) m)))
            = analysis_history (session m)
              ++ [{| timestamp := now_at W (S (S (clock m)));
                     stocks := sel;
                     query := compose_query mode sel cq;
                     response := content;
                     duration :=
                       [Fixed false 2 (fsub (time_at W (S (clock m)))
                                            (time_at W (clock m)));
                        Lit "s"] |}]
     end.
Proof.
  intros Ha Hsel.
  destruct (Agent_run W a (compose_query mode sel cq)) as [content|e] eqn:Hq.
  - destruct (@analysis_section_answered a sel mode cq content m Ha Hsel Hq)
      as [Hr Hs].
    split; [exact Hr|]. rewrite Hs. split; reflexivity.
  - rewrite (@analysis_section_failed a sel mode cq e m Ha Hsel Hq). simpl.
    split; [reflexivity|]. split; [reflexivity|].
    apply in_or_app. right. right. now left.
Qed.

(** C3, as amended.  In Custom Query mode the prompt is "Analyze ", the
    tickers joined by ", ", " stocks: " and the free-text as it is, empty
    or not; the analysis runs on that prompt in either case: when the agent
    answers it, the record with this prompt and the answer is appended. *)
Theorem custom_query_prompt (sel : list string) (cq : string) :
  compose_query CustomQuery sel cq
  = ("Analyze " ++ join ", " sel ++ " stocks: " ++ cq)%string
  /\ forall (a : Agent) (m : machine Agent) (content : string),
       agent (session m) = Some a ->
       sel <> [] ->
       Agent_run W a ("Analyze " ++ join ", " sel ++ " stocks: " ++ cq)%string
       = Ret content ->
       analysis_history
         (session (snd (run (analysis_section W sel CustomQuery cq true) m)))
       = analysis_history (session m)
         ++ [analysis_record W m sel
               ("Analyze " ++ join ", " sel ++ " stocks: " ++ cq)%string content].
Proof.
  split; [reflexivity|].
  intros a m content Ha Hsel Hq.
  destruct (@analysis_section_answered a sel CustomQuery cq content m Ha Hsel Hq)
    as [_ Hs].
  rewrite Hs. reflexivity.
Qed.

(** The assignment of line 165 is unconditional. *)
Lemma initialize_agent_run (m : machine Agent) :
  run (initialize_agent W true) m
  = match Agent_new W with
    | Ret a =>
        (Ret tt,
         {| session := {| agent := Some a;
                          analysis_history := analysis_history (session m) |};
            page := page m
                    ++ [st_button_ "🚀 Initialize AI Agent" false;
                        st_success_ (txt "✅ Agent initialized successfully!")];
            clock := clock m |})
    | Raise e =>
        (Ret tt,
         {| session := {| agent := None;
                          analysis_history := analysis_history (session m) |};
            page := page m
                    ++ [st_button_ "🚀 Initialize AI Agent" false;
                        st_error_ ("Error creating agent: " ++ e);
                        st_error_ "❌ Failed to initialize agent"];
            clock := clock m |})
    end.
Proof.
  unfold run, initialize_agent, create_agent, st_button, st_success, st_error,
    try_except, bind, call, emit, ret, set_agent.
  destruct (Agent_new W) as [a|e];
    cbn [session page clock agent analysis_history andb negb];
    repeat rewrite <- app_assoc; reflexivity.
Qed.


End Analysis.

(** ** The ticker selection *)
Section Selection.

Import Py Spec PyFacts.

Lemma select_stocks_custom (ms : list string) (custom : string) :
  custom <> EmptyString ->
  select_stocks ms custom
  = map (fun p => upper (strip p)) (split "," custom).
Proof.
  intros Hc. unfold select_stocks.
  destruct custom as [|c custom]; [congruence|]. simpl truthy_str. cbv iota.
  pose proof (split_not_nil "," (String c custom)) as Hne.
  destruct (split "," (String c custom)); [congruence | reflexivity].
Qed.

(** The selection is never empty, so the button of line 283 is never
    drawn disabled by [main]. *)
Lemma select_stocks_not_nil (ms : list string) (custom : string) :
  select_stocks ms custom <> [].
Proof.
  destruct custom as [|c custom].
  - unfold select_stocks. simpl. destruct ms; simpl; discriminate.
  - rewrite select_stocks_custom by discriminate.
    pose proof (split_not_nil "," (String c custom)) as Hne.
    destruct (split "," (String c custom)); [congruence | discriminate].
Qed.



End Selection.

(** ** Computations that only write to the page, and when Run Analysis
    is offered *)
Section Main.

Context {num : Type} {F : Float64 num}.
Variable Agent : Type.
Variable W : @world num Agent.

Import Py Spec.

Lemma page_only_ret {A} (a : A) : page_only (@ret num Agent A a).
Proof. intros m. exists a, []. unfold ret. now rewrite with_page_nil. Qed.

Lemma page_only_emit (u : ui) : page_only (@emit num Agent u).
Proof. intros m. exists tt, [u]. reflexivity. Qed.

Lemma page_only_bind {A B} (c : @M num Agent A) (k : A -> @M num Agent B) :
  page_only c -> (forall a, page_only (k a)) -> page_only (bind c k).
Proof.
  intros Hc Hk m. destruct (Hc m) as [a [us Ha]].
  destruct (Hk a (with_page m us)) as [b [vs Hb]].
  exists b, (us ++ vs). unfold bind. rewrite Ha, Hb. now rewrite with_page_app.
Qed.

Lemma page_only_for_each {A S} (l : list A) (body : S -> A -> @M num Agent S) :
  (forall s a, page_only (body s a)) ->
  forall s, page_only (for_each l body s).
Proof.
  intros Hbody. induction l as [|a l IH]; intros s; simpl.
  - apply page_only_ret.
  - apply page_only_bind; [apply Hbody | exact IH].
Qed.

Lemma page_only_get_stock_data (T : list string) (P : string) :
  page_only (get_stock_data W T P).
Proof.
  intros m. eexists. eexists.
  apply (for_each_get_stock_data_step W P T [] m).
Qed.

Lemma page_only_metric_card (i : nat) (s : string) (data : StockSnapshot) :
  page_only (@metric_card num F Agent i s data).
Proof.
  unfold metric_card.
  destruct (current_price data) as [p|]; [|apply page_only_ret].
  destruct (truthy p); [|apply page_only_ret].
  intros m. unfold try_except, bind, call.
  destruct (iloc (map Close (history data)) (-2)); eexists; eexists; reflexivity.
Qed.

Lemma page_only_metric_cards (stock_data : dict StockSnapshot) :
  page_only (@metric_cards num F Agent stock_data).
Proof.
  unfold metric_cards. apply page_only_for_each. intros i item.
  apply page_only_bind; [apply page_only_metric_card|].
  intros _. apply page_only_ret.
Qed.

Lemma page_only_data_column (sel : list string) :
  page_only (data_column W sel).
Proof.
  unfold data_column. destruct (truthy_list sel); [|apply page_only_ret].
  apply page_only_bind; [apply page_only_emit|]. intros _.
  apply page_only_bind; [apply page_only_get_stock_data|]. intros stock_data.
  destruct (truthy_list stock_data); [|apply page_only_ret].
  apply page_only_bind; [apply page_only_metric_cards|]. intros _.
  apply page_only_bind; [apply page_only_emit|]. intros _.
  apply page_only_emit.
Qed.

(** C7.  Run Analysis is gated on the agent and on the selection.  With no
    agent in the session the section shows the warning and no button, and
    whether or not a press is reported, session and clock stay as they
    were.  With an agent, the button is drawn with [disabled] set exactly
    when the selection is empty, and for an empty selection a press does
    nothing more than draw the disabled button. *)
Theorem run_analysis_gated (sel : list string) (mode : analysis_mode)
  (cq : string) (clicked : bool) (m : machine Agent) :
  (agent (session m) = None ->
   run (analysis_section W sel mode cq clicked) m
   = (Ret tt,
      {| session := session m;
         page := page m
                 ++ [st_warning_
                       "⚠️ Please initialize the AI Agent in the sidebar first."];
         clock := clock m |}))
  /\ (forall a, agent (session m) = Some a ->
      exists rest,
        page (snd (run (analysis_section W sel mode cq clicked) m))
        = page m
          ++ st_button_ "🔍 Run Analysis" (negb (truthy_list sel)) :: rest)
  /\ (forall a, agent (session m) = Some a -> sel = [] ->
      run (analysis_section W sel mode cq clicked) m
      = (Ret tt,
         {| session := session m;
            page := page m ++ [st_button_ "🔍 Run Analysis" true];
            clock := clock m |})).
Proof.
  split; [|split].
  - intros Ha. now rewrite (@analysis_section_no_agent num F Agent W sel mode cq
                              clicked m Ha).
  - intros a Ha. destruct sel as [|t sel'] eqn:Esel.
    + exists []. unfold run, analysis_section, bind, get_agent. rewrite Ha.
      simpl. destruct clicked; reflexivity.
    + destruct clicked.
      * assert (Hne : t :: sel' <> []) by discriminate.
        destruct (Agent_run W a (compose_query mode (t :: sel') cq))
          as [content|e] eqn:Hq.
        -- rewrite (@analysis_section_pressed num F Agent W a (t :: sel') mode cq m
                      Ha Hne).
           unfold try_except.
           pose proof (@run_analysis_run num F Agent W a (t :: sel')
                         (compose_query mode (t :: sel') cq)
                         (with_page m [run_button])) as Hrun.
           unfold run in Hrun. rewrite Hrun, Hq. simpl.
           rewrite <- app_assoc. eexists. reflexivity.
        -- rewrite (@analysis_section_failed num F Agent W a (t :: sel') mode cq e m
                      Ha Hne Hq).
           simpl.
           eexists. reflexivity.
      * exists []. unfold run, analysis_section, bind, get_agent. rewrite Ha.
        reflexivity.
  - intros a Ha ->. unfold run, analysis_section, bind, get_agent. rewrite Ha.
    simpl. destruct clicked; reflexivity.
Qed.

End Main.

(** ** More on the market-data fetcher *)
Section FetcherOrder.

Context {num : Type}.
Variable Agent : Type.
Variable W : @world num Agent.

Import Py Spec DictFacts.

Lemma keys_dict_set_eq {V} (k : string) (v : V) (d : dict V) :
  keys (dict_set k v d)
  = if existsb (String.eqb k) (keys d) then keys d else keys d ++ [k].
Proof.
  unfold keys. induction d as [|[k0 v0] d IH]; simpl; [reflexivity|].
  destruct (String.eqb k k0) eqn:E; simpl.
  - apply String.eqb_eq in E. now subst k0.
  - rewrite IH.
    destruct (existsb (String.eqb k) (map fst d)); reflexivity.
Qed.

Lemma filter_filter {A} (f g : A -> bool) (l : list A) :
  filter f (filter g l) = filter (fun x => g x && f x) l.
Proof.
  induction l as [|a l IH]; simpl; [reflexivity|].
  destruct (g a); simpl; [destruct (f a)|]; now rewrite IH.
Qed.

Lemma dedup_incl (l : list string) (x : string) : In x (dedup l) -> In x l.
Proof.
  revert x. induction l as [|a l IH]; simpl; intros x; [tauto|].
  intros [->|Hin]; [now left|]. apply filter_In in Hin. right. now apply IH.
Qed.

Lemma dedup_NoDup (l : list string) : NoDup l -> dedup l = l.
Proof.
  induction l as [|a l IH]; simpl; intros Hnd; [reflexivity|].
  inversion Hnd as [|? ? Hnin Hnd']; subst. rewrite IH by assumption.
  f_equal. rewrite <- (filter_ext_in (fun _ => true)).
  - clear. induction l as [|b l IH]; simpl; [reflexivity | now rewrite IH].
  - intros y Hy. symmetry. apply negb_true_iff, String.eqb_neq.
    intros ->. contradiction.
Qed.

Lemma dedup_length (l : list string) : List.length (dedup l) <= List.length l.
Proof.
  induction l as [|a l IH]; simpl; [lia|].
  pose proof (filter_length_le (fun y => negb (String.eqb y a)) (dedup l)). lia.
Qed.

(** The keys after the loop: those there before, then the symbols whose
    fetch returned, each where it first comes. *)
Lemma fetched_keys_order (P : string) (symbols : list string) :
  forall data : dict StockSnapshot,
    keys (fetched W P data symbols)
    = keys data
      ++ filter (fun y => negb (existsb (String.eqb y) (keys data)))
                (dedup (filter (fetch_ok W P) symbols)).
Proof.
  induction symbols as [|x symbols IH]; intros data.
  - simpl. now rewrite app_nil_r.
  - unfold fetched in *. simpl. unfold fetch_ok at 1.
    destruct (fetch_symbol W x P) as [snapshot|e] eqn:E; [|apply IH].
    rewrite IH, keys_dict_set_eq. simpl.
    destruct (existsb (String.eqb x) (keys data)) eqn:Ex; simpl.
    + f_equal. rewrite filter_filter. apply filter_ext_in. intros y _.
      destruct (String.eqb y x) eqn:Ey; simpl; [|reflexivity].
      apply String.eqb_eq in Ey. subst y. now rewrite Ex.
    + rewrite <- app_assoc. simpl. do 2 f_equal.
      rewrite filter_filter. apply filter_ext_in. intros y _.
      rewrite existsb_app. simpl. rewrite orb_false_r, negb_orb.
      apply andb_comm.
Qed.

Lemma fetch_warnings_length (P : string) (symbols : list string) :
  List.length (fetch_warnings W P symbols)
  = List.length (filter (fun s => negb (fetch_ok W P s)) symbols).
Proof.
  unfold fetch_warnings, fetch_ok.
  induction symbols as [|x symbols IH]; simpl; [reflexivity|].
  destruct (fetch_symbol W x P); simpl; now rewrite IH.
Qed.

Lemma filter_split_length {A} (f : A -> bool) (l : list A) :
  List.length (filter f l) + List.length (filter (fun a => negb (f a)) l)
  = List.length l.
Proof.
  induction l as [|a l IH]; simpl; [reflexivity|].
  destruct (f a); simpl; lia.
Qed.

Lemma fetched_get_inv (P : string) (symbols : list string) :
  forall (data : dict StockSnapshot) (k : string) (snapshot : StockSnapshot),
    dict_get k (fetched W P data symbols) = Some snapshot ->
    dict_get k data = Some snapshot \/ fetch_symbol W k P = Ret snapshot.
Proof.
  induction symbols as [|x symbols IH]; intros data k snapshot Hg; [now left|].
  unfold fetched in *. simpl in Hg.
  destruct (fetch_symbol W x P) as [sx|e] eqn:E.
  - apply IH in Hg. destruct Hg as [Hg|Hg]; [|now right].
    rewrite dict_get_set in Hg. destruct (String.eqb k x) eqn:Ek; [|now left].
    apply String.eqb_eq in Ek. subst x. right. congruence.
  - now apply IH in Hg.
Qed.

Lemma fetched_keys_dedup (P : string) (T : list string) :
  keys (fetched W P [] T) = dedup (filter (fetch_ok W P) T).
Proof.
  rewrite fetched_keys_order. simpl.
  generalize (dedup (filter (fetch_ok W P) T)). intros l.
  induction l as [|a l IH]; simpl; [reflexivity | now rewrite IH].
Qed.

(** X1.  The keys of the result keep the order of the request: they are
    the symbols whose fetch returned, each once, at the place of its first
    occurrence; when no symbol is asked for twice, they are the returned
    symbols as they were listed. *)
Theorem get_stock_data_keys_in_request_order (T : list string) (P : string)
  (m : machine Agent) :
  exists data m',
    run (get_stock_data W T P) m = (Ret data, m')
    /\ keys data = dedup (filter (fetch_ok W P) T)
    /\ (NoDup T -> keys data = filter (fetch_ok W P) T).
Proof.
  exists (fetched W P [] T), (with_page m (fetch_warnings W P T)).
  split; [apply for_each_get_stock_data_step|].
  split; [apply fetched_keys_dedup|].
  intros Hnd. rewrite fetched_keys_dedup. apply dedup_NoDup.
  now apply NoDup_filter.
Qed.

(** X2.  Every symbol asked for is accounted for at most once as an entry
    and once per failed attempt as a warning: the entries and the warnings
    together are no more than the symbols, and exactly as many when no
    symbol is asked for twice.  In particular the dictionary has no more
    entries than there are symbols. *)
Theorem get_stock_data_accounts_for_symbols (T : list string) (P : string)
  (m : machine Agent) :
  exists data warnings,
    run (get_stock_data W T P) m = (Ret data, with_page m warnings)
    /\ List.length data <= List.length T
    /\ List.length data + List.length warnings <= List.length T
    /\ (NoDup T -> List.length data + List.length warnings = List.length T).
Proof.
  exists (fetched W P [] T), (fetch_warnings W P T).
  split; [apply for_each_get_stock_data_step|].
  assert (Hk : List.length (fetched W P [] T)
               = List.length (keys (fetched W P [] T)))
    by (unfold keys; now rewrite length_map).
  assert (Hd : keys (fetched W P [] T) = dedup (filter (fetch_ok W P) T))
    by apply fetched_keys_dedup.
  pose proof (dedup_length (filter (fetch_ok W P) T)) as Hle.
  pose proof (filter_split_length (fetch_ok W P) T) as Hsum.
  rewrite Hk, Hd, fetch_warnings_length.
  split; [lia|]. split; [lia|].
  intros Hnd. rewrite dedup_NoDup by now apply NoDup_filter. lia.
Qed.

End FetcherOrder.

(** ** From the fetched data to the charts *)
Section FetchedCharts.

Context {num : Type}.
Variable Agent : Type.
Variable W : @world num Agent.

Import Py Spec DictFacts.

Lemma fetch_symbol_inv (P s : string) (snapshot : StockSnapshot) :
  fetch_symbol W s P = Ret snapshot ->
  Ticker_history W s P = Ret (history snapshot)
  /\ Ticker_info W s = Ret (info snapshot)
  /\ current_price snapshot
     = match rev (history snapshot) with
       | b :: _ => Some (Close b)
       | [] => None
       end.
Proof.
  unfold fetch_symbol.
  destruct (Ticker_history W s P) as [hist|e]; simpl; [|discriminate].
  destruct (Ticker_info W s) as [inf|e]; simpl; [|discriminate].
  destruct hist as [|b0 hist].
  - simpl. intros H. injection H as <-. simpl. repeat split.
  - destruct (exists_last (l := b0 :: hist)) as [older [b Hb]]; [discriminate|].
    rewrite Hb. replace (empty (older ++ [b])) with false
      by (destruct older; reflexivity).
    simpl negb. cbv iota. rewrite map_app. simpl map. rewrite iloc_last.
    simpl. intros H. injection H as <-. simpl. rewrite rev_unit.
    repeat split.
Qed.

(** X3.  Every snapshot of the result belongs to a symbol that was asked
    for and holds what the library returned for it: that history, that
    info, and as current price the close of the last row of the history,
    or nothing when the history has no row. *)
Theorem get_stock_data_snapshots_consistent (T : list string) (P : string)
  (m : machine Agent) :
  exists data m',
    run (get_stock_data W T P) m = (Ret data, m')
    /\ forall s snapshot,
         dict_get s data = Some snapshot ->
         In s T
         /\ Ticker_history W s P = Ret (history snapshot)
         /\ Ticker_info W s = Ret (info snapshot)
         /\ current_price snapshot
            = match rev (history snapshot) with
              | b :: _ => Some (Close b)
              | [] => None
              end.
Proof.
  exists (fetched W P [] T), (with_page m (fetch_warnings W P T)).
  split; [apply for_each_get_stock_data_step|].
  intros s snapshot Hg. split.
  - apply dict_get_in in Hg. apply fetched_keys in Hg.
    destruct Hg as [[]|[Hin _]]. exact Hin.
  - apply fetched_get_inv in Hg. destruct Hg as [Hg|Hg]; [discriminate|].
    now apply fetch_symbol_inv.
Qed.

Lemma series_of_price_chart (stock_data : dict (@StockSnapshot num))
  (s : string) :
  NoDup (keys stock_data) ->
  series_of s (create_price_chart stock_data)
  = match dict_get s stock_data with
    | Some data => if empty (history data) then [] else [price_series s data]
    | None => []
    end.
Proof.
  intros Hnd. unfold series_of. rewrite create_price_chart_traces.
  now rewrite named_series.
Qed.

Lemma series_of_volume_chart (stock_data : dict (@StockSnapshot num))
  (s : string) :
  NoDup (keys stock_data) ->
  series_of s (create_volume_chart stock_data)
  = match dict_get s stock_data with
    | Some data => if empty (history data) then [] else [volume_series s data]
    | None => []
    end.
Proof.
  intros Hnd. unfold series_of. rewrite create_volume_chart_traces.
  now rewrite named_series.
Qed.

(** X6.  Charts drawn from what [get_stock_data] returns: a symbol has a
    series, one in each chart, exactly when it was asked for, its fetch
    returned and the history that came back has a row; a symbol not asked
    for, one whose fetch raised and one whose history came back empty have
    no series. *)
Theorem charts_of_fetched_data (T : list string) (P : string)
  (m : machine Agent) :
  exists data m',
    run (get_stock_data W T P) m = (Ret data, m')
    /\ forall s,
         (forall snapshot,
            In s T -> fetch_symbol W s P = Ret snapshot ->
            history snapshot <> [] ->
            series_of s (create_price_chart data) = [price_series s snapshot]
            /\ series_of s (create_volume_chart data)
               = [volume_series s snapshot])
         /\ (~ In s T
             \/ (exists e, fetch_symbol W s P = Raise e)
             \/ (exists snapshot, fetch_symbol W s P = Ret snapshot
                                  /\ history snapshot = []) ->
             series_of s (create_price_chart data) = []
             /\ series_of s (create_volume_chart data) = []).
Proof.
  exists (fetched W P [] T), (with_page m (fetch_warnings W P T)).
  split; [apply for_each_get_stock_data_step|].
  assert (Hnd : NoDup (keys (fetched W P [] T)))
    by (apply fetched_NoDup; constructor).
  intros s. rewrite series_of_price_chart, series_of_volume_chart by exact Hnd.
  split.
  - intros snapshot Hin Hf Hh.
    rewrite (fetched_get W P T [] s Hin Hf).
    destruct (history snapshot) eqn:E; [congruence|].
    split; reflexivity.
  - intros Hcase.
    destruct (dict_get s (fetched W P [] T)) as [snapshot|] eqn:Hg;
      [|split; reflexivity].
    pose proof Hg as Hk. apply dict_get_in in Hk. apply fetched_keys in Hk.
    destruct Hk as [[]|[Hin [snap' Hs]]].
    rewrite (fetched_get W P T [] s Hin Hs) in Hg. injection Hg as <-.
    destruct Hcase as [Hn|[[e He]|[snap2 [H2 Hh]]]].
    + contradiction.
    + congruence.
    + assert (snap2 = snap') by congruence. subst snap2.
      rewrite Hh. split; reflexivity.
Qed.

End FetchedCharts.

(** ** More on the chart builders *)
Section ChartShape.

Context {num : Type}.

Import Py Spec.

(** X4.  The two charts carry the same names in the same order: the
    symbols of the dictionary that have a history, in the order of the
    dictionary. *)
Theorem charts_share_their_legend (stock_data : dict (@StockSnapshot num)) :
  map trace_name (traces (create_price_chart stock_data))
  = keys (filter has_history stock_data)
  /\ map trace_name (traces (create_volume_chart stock_data))
     = keys (filter has_history stock_data).
Proof.
  rewrite create_price_chart_traces, create_volume_chart_traces.
  unfold keys. rewrite !map_map. split; reflexivity.
Qed.

(** X5.  Every series has as many x values as y values: a price series
    one per row of the history, a volume series one per row of its last
    30.  So no chart is handed columns of different lengths. *)
Theorem chart_series_are_aligned (stock_data : dict (@StockSnapshot num)) :
  Forall
    (fun t => match t with
              | Scatter x y _ _ _ => List.length x = List.length y
              | Bar x y _ => List.length x = List.length y
              end)
    (traces (create_price_chart stock_data)
     ++ traces (create_volume_chart stock_data)).
Proof.
  rewrite create_price_chart_traces, create_volume_chart_traces.
  apply Forall_app. split; apply Forall_forall; intros t Ht;
    apply in_map_iff in Ht; destruct Ht as [[symbol data] [<- _]]; simpl.
  - now rewrite !length_map.
  - now rewrite !slice_last_length, !length_map.
Qed.

End ChartShape.

(** ** The data column *)
Section DataColumn.

Context {num : Type} {F : Float64 num}.
Variable Agent : Type.
Variable W : @world num Agent.

Import Py Spec.

Lemma bind_run {A B} (c : @M num Agent A) (k : A -> @M num Agent B)
  (m : machine Agent) (a : A) (m1 : machine Agent) :
  c m = (Ret a, m1) -> bind c k m = k a m1.
Proof. intros Hc. unfold bind. now rewrite Hc. Qed.

(** One card block: nothing, or one card in its column, for an entry with
    a truthy current price. *)
Lemma metric_card_cases (i : nat) (s : string) (data : StockSnapshot)
  (m : machine Agent) :
  exists cs,
    run (metric_card i s data) m = (Ret tt, with_page m cs)
    /\ (cs = []
        \/ exists p delta,
             cs = [st_metric_ i s [Lit "$"; Fixed false 2 p] delta]
             /\ current_price data = Some p /\ truthy p = true).
Proof.
  unfold run, metric_card.
  destruct (current_price data) as [p|] eqn:Hc;
    [|exists []; split; [unfold ret; now rewrite with_page_nil | now left]].
  destruct (truthy p) eqn:Hp;
    [|exists []; split; [unfold ret; now rewrite with_page_nil | now left]].
  unfold try_except, bind, call.
  destruct (iloc (map Close (history data)) (-2)) as [prev|e];
    eexists; (split; [reflexivity|]); right; eexists; eexists;
    (split; [reflexivity|]); split; reflexivity || assumption.
Qed.

Lemma metric_cards_from (l : dict StockSnapshot) :
  forall (i0 : nat) (m : machine Agent),
  exists cards,
    run (for_each l
           (fun i item =>
              bind (metric_card i (fst item) (snd item))
                   (fun _ => ret (S i)))
           i0) m
    = (Ret (i0 + List.length l), with_page m cards)
    /\ List.length cards <= List.length l
    /\ forall u, In u cards ->
         exists k symbol data p delta,
           u = st_metric_ (i0 + k) symbol [Lit "$"; Fixed false 2 p] delta
           /\ nth_error l k = Some (symbol, data)
           /\ current_price data = Some p /\ truthy p = true.
Proof.
  induction l as [|[symbol data] l IH]; intros i0 m.
  - exists []. simpl. unfold run, ret. rewrite with_page_nil, Nat.add_0_r.
    split; [reflexivity|]. split; [lia | intros u []].
  - destruct (metric_card_cases i0 symbol data m) as [cs [Hrun Hcs]].
    destruct (IH (S i0) (with_page m cs)) as [cards [Hrest [Hlen Hall]]].
    exists (cs ++ cards). unfold run in *. simpl.
    unfold bind at 1. unfold bind at 1. rewrite Hrun. unfold ret at 1.
    rewrite Hrest, with_page_app.
    split; [f_equal; f_equal; lia|].
    split.
    + rewrite length_app. simpl.
      destruct Hcs as [->|[p [delta [-> _]]]]; simpl; lia.
    + intros u Hu. apply in_app_or in Hu. destruct Hu as [Hu|Hu].
      * destruct Hcs as [->|[p [delta [-> [Hc Hp]]]]]; [destruct Hu|].
        destruct Hu as [<-|[]].
        exists 0, symbol, data, p, delta. rewrite Nat.add_0_r.
        repeat split; assumption.
      * destruct (Hall u Hu) as [k [sy [d [p [delta [-> [Hn [Hc Hp]]]]]]]].
        exists (S k), sy, d, p, delta.
        replace (i0 + S k) with (S i0 + k) by lia.
        repeat split; assumption.
Qed.

(** X7.  The loop over the cards never raises and goes through every
    entry.  It draws at most one card per entry; a card drawn sits in the
    column whose number is the position of its entry in the dictionary and
    carries that entry's symbol and current price, so an entry without a
    truthy price leaves its column empty and the later cards stay where
    they are. *)
Theorem metric_cards_keep_their_column (stock_data : dict StockSnapshot)
  (m : machine Agent) :
  exists cards,
    run (metric_cards stock_data) m
    = (Ret (List.length stock_data), with_page m cards)
    /\ List.length cards <= List.length stock_data
    /\ forall u, In u cards ->
         exists i symbol data p delta,
           u = st_metric_ i symbol [Lit "$"; Fixed false 2 p] delta
           /\ nth_error stock_data i = Some (symbol, data)
           /\ current_price data = Some p /\ truthy p = true.
Proof.
  destruct (metric_cards_from stock_data 0 m) as [cards [Hrun [Hlen Hall]]].
  exists cards. split; [exact Hrun|]. split; [exact Hlen|]. exact Hall.
Qed.

(** X8.  The data column for a non-empty selection never raises and only
    adds to the page: the header, then the warnings of the fetches that
    raised, and then, unless no symbol came back, the cards followed by
    the price chart and the volume chart of the fetched data.  With no
    symbol fetched nothing follows the warnings.  Every card sits in a
    column below the number of selected symbols, so the column asked of
    [st.columns] exists. *)
Theorem data_column_layout (sel : list string) (m : machine Agent) :
  sel <> [] ->
  exists data warnings cards,
    run (get_stock_data W sel "6mo") m = (Ret data, with_page m warnings)
    /\ run (data_column W sel) m
       = (Ret tt,
          with_page m
            (st_header_ ("📈 Live Data for " ++ join ", " sel)
             :: warnings
             ++ (if truthy_list data
                 then cards
                      ++ [st_plotly_chart_ (create_price_chart data);
                          st_plotly_chart_ (create_volume_chart data)]
                 else [])))
    /\ Forall
         (fun u => exists i label value delta,
                     u = st_metric_ i label value delta
                     /\ i < List.length sel)
         cards.
Proof.
  intros Hsel. destruct sel as [|t sel]; [congruence|]. clear Hsel.
  pose proof (fun m0 =>
                for_each_get_stock_data_step W "6mo" (t :: sel) [] m0) as Hfetch.
  unfold run in *.
  remember (st_header_ ("📈 Live Data for " ++ join ", " (t :: sel))) as h.
  remember (fetched W "6mo" [] (t :: sel)) as data.
  remember (fetch_warnings W "6mo" (t :: sel)) as warnings.
  destruct (metric_cards_from data 0 (with_page (with_page m [h]) warnings))
    as [cards [Hcards [_ Hall]]].
  unfold run in Hcards.
  exists data, warnings, cards.
  split; [apply Hfetch|]. split.
  - unfold data_column. change (truthy_list (t :: sel)) with true. cbv iota.
    rewrite (@bind_run _ _
               (st_header ("📈 Live Data for " ++ join ", " (t :: sel))) _
               m tt (with_page m [h]))
      by (rewrite Heqh; reflexivity).
    rewrite (@bind_run _ _ (get_stock_data W (t :: sel) "6mo") _
               (with_page m [h]) data (with_page (with_page m [h]) warnings))
      by apply Hfetch.
    destruct (truthy_list data).
    + rewrite (@bind_run _ _ (metric_cards data) _ _ _ _ Hcards).
      unfold bind, st_plotly_chart, emit, with_page. simpl.
      repeat rewrite <- app_assoc. reflexivity.
    + unfold ret, with_page. simpl. rewrite app_nil_r.
      repeat rewrite <- app_assoc. reflexivity.
  - apply Forall_forall. intros u Hu.
    destruct (Hall u Hu) as [k [symbol [d [p [delta [-> [Hn _]]]]]]].
    exists k, symbol, [Lit "$"; Fixed false 2 p], delta.
    split; [reflexivity|].
    assert (Hk : k < List.length data)
      by (apply nth_error_Some; congruence).
    pose proof (fetched_length W "6mo" (t :: sel) []) as Hlen.
    rewrite <- Heqdata in Hlen. simpl in *. lia.
Qed.

End DataColumn.

(** ** More on the ticker selection *)
Section SelectionMore.

Import Py Spec PyFacts.

Lemma split_no_sep_id (sep : ascii) (s : string) :
  mem_char sep s = false -> split sep s = [s].
Proof.
  induction s as [|c s IH]; simpl; [reflexivity|].
  intros H. apply orb_false_iff in H. destruct H as [Hc Hs].
  rewrite Hc, IH by exact Hs. reflexivity.
Qed.

Lemma split_app_sep (sep : ascii) (t rest : string) :
  mem_char sep t = false ->
  split sep (t ++ String sep rest) = t :: split sep rest.
Proof.
  induction t as [|c t IH]; simpl.
  - intros _. now rewrite Ascii.eqb_refl.
  - intros H. apply orb_false_iff in H. destruct H as [Hc Ht].
    rewrite Hc, IH by exact Ht. reflexivity.
Qed.

Lemma concat_push (sep pre t : string) (l : list string) :
  (pre ++ String.concat sep (t :: l))%string
  = String.concat sep ((pre ++ t)%string :: l).
Proof.
  destruct l as [|u l]; simpl; [reflexivity|].
  induction pre as [|c pre IH]; simpl; [reflexivity | now rewrite IH].
Qed.

(** Cutting at the commas what was joined with a comma and a blank. *)
Lemma split_join_comma_blank (l : list string) :
  Forall (fun t => mem_char "," t = false) l ->
  forall t, mem_char "," t = false ->
    split "," (join ", " (t :: l)) = t :: map (String " ") l.
Proof.
  unfold join. induction l as [|u l IH]; intros Hl t Ht.
  - simpl. now apply split_no_sep_id.
  - inversion Hl as [|? ? Hu Hl']; subst.
    change (String.concat ", " (t :: u :: l))
      with (t ++ String "," (" " ++ String.concat ", " (u :: l)))%string.
    rewrite split_app_sep by exact Ht.
    rewrite concat_push. rewrite IH; [reflexivity | exact Hl' | exact Hu].
Qed.

Lemma lstrip_id (s : string) : leading_space s = false -> lstrip s = s.
Proof. destruct s as [|c s]; simpl; [reflexivity | now intros ->]. Qed.

Lemma rstrip_id (s : string) : trailing_space s = false -> rstrip s = s.
Proof.
  induction s as [|c s IH]; [reflexivity|].
  destruct s as [|d s].
  - simpl. now intros ->.
  - intros H. change (trailing_space (String d s) = false) in H.
    change (rstrip (String c (String d s)))
      with (match rstrip (String d s) with
            | EmptyString =>
                if isspace c then EmptyString else String c EmptyString
            | r => String c r
            end).
    now rewrite IH.
Qed.

Lemma upper_id (s : string) : has_lower s = false -> upper s = s.
Proof.
  induction s as [|c s IH]; simpl; [reflexivity|].
  intros H. apply orb_false_iff in H. destruct H as [Hc Hs].
  unfold upper_char. rewrite Hc, IH by exact Hs. reflexivity.
Qed.

Lemma normalized_fixed (t : string) : normalized t -> upper (strip t) = t.
Proof.
  intros [Hl [Ht Hu]]. unfold strip.
  now rewrite lstrip_id, rstrip_id, upper_id.
Qed.

Lemma normalized_after_blank (t : string) :
  normalized t -> upper (strip (String " " t)) = t.
Proof.
  intros Hn. unfold strip. change (lstrip (String " " t)) with (lstrip t).
  now apply normalized_fixed.
Qed.

Lemma mem_comma_upper_char (c : ascii) :
  Ascii.eqb (upper_char c) "," = Ascii.eqb c ",".
Proof. destruct c as [[] [] [] [] [] [] [] []]; reflexivity. Qed.

Lemma mem_comma_upper (s : string) : mem_char "," (upper s) = mem_char "," s.
Proof.
  induction s as [|c s IH]; simpl; [reflexivity|].
  now rewrite mem_comma_upper_char, IH.
Qed.

Lemma mem_char_lstrip (a : ascii) (s : string) :
  mem_char a s = false -> mem_char a (lstrip s) = false.
Proof.
  induction s as [|c s IH]; simpl; [reflexivity|].
  intros H. destruct (isspace c); [|exact H].
  apply orb_false_iff in H. now apply IH.
Qed.

Lemma mem_char_rstrip (a : ascii) (s : string) :
  mem_char a s = false -> mem_char a (rstrip s) = false.
Proof.
  induction s as [|c s IH]; simpl; [reflexivity|].
  intros H. apply orb_false_iff in H. destruct H as [Hc Hs].
  specialize (IH Hs). destruct (rstrip s) as [|d r].
  - destruct (isspace c); simpl; [reflexivity | now rewrite Hc].
  - simpl in *. now rewrite Hc, IH.
Qed.

(** The tickers of a selection made from a free-text hold no comma. *)
Lemma select_stocks_no_comma (ms : list string) (custom : string) :
  custom <> EmptyString ->
  Forall (fun t => mem_char "," t = false) (select_stocks ms custom).
Proof.
  intros Hc. rewrite select_stocks_custom by exact Hc.
  apply Forall_forall. intros t Ht. apply in_map_iff in Ht.
  destruct Ht as [p [<- Hp]].
  pose proof (split_no_sep "," custom) as Hs.
  rewrite Forall_forall in Hs. specialize (Hs p Hp). simpl in Hs.
  rewrite mem_comma_upper. unfold strip.
  now apply mem_char_rstrip, mem_char_lstrip.
Qed.

Lemma retype_selection (ms : list string) (l : list string) :
  Forall normalized l ->
  Forall (fun t => mem_char "," t = false) l ->
  join ", " l <> EmptyString ->
  select_stocks ms (join ", " l) = l.
Proof.
  intros Hn Hc Hne. rewrite select_stocks_custom by exact Hne.
  destruct l as [|t l]; [exfalso; now apply Hne|].
  inversion Hn as [|? ? Hnt Hnl]; subst.
  inversion Hc as [|? ? Hct Hcl]; subst.
  rewrite split_join_comma_blank by assumption.
  simpl. rewrite normalized_fixed by exact Hnt. f_equal.
  rewrite map_map. clear - Hnl.
  induction Hnl as [|u l Hu Hl IH]; simpl; [reflexivity|].
  now rewrite normalized_after_blank, IH.
Qed.

Lemma isascii_app (s t : string) :
  isascii s = true -> isascii t = true -> isascii (s ++ t) = true.
Proof.
  induction s as [|c s IH]; simpl; [auto|].
  intros H Ht. apply andb_true_iff in H. destruct H as [Hc Hs].
  now rewrite Hc, IH.
Qed.

Lemma isascii_split (sep : ascii) (s : string) :
  isascii s = true -> Forall (fun p => isascii p = true) (split sep s).
Proof.
  induction s as [|c s IH]; simpl.
  - intros _. constructor; [reflexivity | constructor].
  - intros H. apply andb_true_iff in H. destruct H as [Hc Hs].
    specialize (IH Hs). destruct (Ascii.eqb c sep).
    + constructor; [reflexivity | exact IH].
    + destruct (split sep s) as [|p ps].
      * constructor; [simpl; now rewrite Hc | constructor].
      * inversion IH; subst.
        constructor; [simpl; now rewrite Hc | assumption].
Qed.

Lemma isascii_lstrip (s : string) :
  isascii s = true -> isascii (lstrip s) = true.
Proof.
  induction s as [|c s IH]; simpl; [reflexivity|].
  intros H. destruct (isspace c); [|exact H].
  apply andb_true_iff in H. now apply IH.
Qed.

Lemma isascii_rstrip (s : string) :
  isascii s = true -> isascii (rstrip s) = true.
Proof.
  induction s as [|c s IH]; simpl; [reflexivity|].
  intros H. apply andb_true_iff in H. destruct H as [Hc Hs].
  specialize (IH Hs). destruct (rstrip s) as [|d r].
  - destruct (isspace c); simpl; [reflexivity | now rewrite Hc].
  - simpl in *. now rewrite Hc, IH.
Qed.

Lemma isascii_upper_char (c : ascii) :
  (nat_of_ascii (upper_char c) <? 128) = (nat_of_ascii c <? 128).
Proof. destruct c as [[] [] [] [] [] [] [] []]; reflexivity. Qed.

Lemma isascii_upper (s : string) : isascii (upper s) = isascii s.
Proof.
  induction s as [|c s IH]; simpl; [reflexivity|].
  now rewrite isascii_upper_char, IH.
Qed.

Lemma isascii_concat (sep : string) (l : list string) :
  isascii sep = true -> Forall (fun t => isascii t = true) l ->
  isascii (String.concat sep l) = true.
Proof.
  intros Hsep Hl. induction Hl as [|t l Ht Hl IH]; [reflexivity|].
  destruct l as [|u l]; [exact Ht|].
  change (String.concat sep (t :: u :: l))
    with (t ++ sep ++ String.concat sep (u :: l))%string.
  now repeat apply isascii_app.
Qed.

(** The selection made from an ASCII free-text is ASCII. *)
Lemma select_stocks_isascii (ms : list string) (custom : string) :
  custom <> EmptyString -> isascii custom = true ->
  Forall (fun t => isascii t = true) (select_stocks ms custom).
Proof.
  intros Hc Ha. rewrite select_stocks_custom by exact Hc.
  pose proof (isascii_split "," custom Ha) as Hs.
  induction Hs as [|p ps Hp Hps IH]; simpl; constructor; [|exact IH].
  rewrite isascii_upper. unfold strip.
  now apply isascii_rstrip, isascii_lstrip.
Qed.

(** X11.  The selection made from an ASCII free-text is in the form the
    page shows it in: the shown list (the tickers joined by a comma and a
    blank, as in the header of the data column) is ASCII again, and typing
    it into the free-text box selects the same tickers, whatever the
    multiselect holds, provided the shown list is not the empty text. *)
Theorem shown_selection_selects_itself (ms ms' : list string) (custom : string) :
  custom <> EmptyString ->
  isascii custom = true ->
  join ", " (select_stocks ms custom) <> EmptyString ->
  isascii (join ", " (select_stocks ms custom)) = true
  /\ select_stocks ms' (join ", " (select_stocks ms custom))
     = select_stocks ms custom.
Proof.
  intros Hc Ha Hne. split.
  - apply isascii_concat; [reflexivity|]. now apply select_stocks_isascii.
  - apply retype_selection.
    + rewrite select_stocks_custom by exact Hc.
      apply Forall_forall. intros t Ht. apply in_map_iff in Ht.
      destruct Ht as [p [<- _]]. apply upper_strip_normalized.
    + now apply select_stocks_no_comma.
    + exact Hne.
Qed.

Lemma lstrip_all_space (s : string) :
  all_space s = true -> lstrip s = EmptyString.
Proof.
  induction s as [|c s IH]; simpl; [reflexivity|].
  intros H. apply andb_true_iff in H. destruct H as [Hc Hs].
  rewrite Hc. now apply IH.
Qed.

Lemma split_blank_or_comma (s : string) :
  blank_or_comma s = true -> Forall (fun p => all_space p = true) (split "," s).
Proof.
  induction s as [|c s IH]; simpl.
  - intros _. constructor; [reflexivity | constructor].
  - intros H. apply andb_true_iff in H. destruct H as [Hc Hs].
    specialize (IH Hs). destruct (Ascii.eqb c ",") eqn:E.
    + constructor; [reflexivity | exact IH].
    + rewrite orb_false_r in Hc.
      destruct (split "," s) as [|p ps].
      * constructor; [simpl; now rewrite Hc | constructor].
      * inversion IH; subst.
        constructor; [simpl; now rewrite Hc | assumption].
Qed.

(** X10.  A free-text that is not empty but holds only blanks and commas
    does not fall back to the multiselect or to the default: the selection
    is made of empty tickers, one more than the text has commas. *)
Theorem blank_free_text_selects_empty_tickers (ms : list string)
  (custom : string) :
  custom <> EmptyString ->
  blank_or_comma custom = true ->
  select_stocks ms custom
  = repeat EmptyString (List.length (split "," custom))
  /\ select_stocks ms custom <> [].
Proof.
  intros Hc Hb. split; [|apply select_stocks_not_nil].
  rewrite select_stocks_custom by exact Hc.
  pose proof (split_blank_or_comma custom Hb) as Hs.
  induction Hs as [|p ps Hp Hps IH]; simpl; [reflexivity|].
  rewrite IH. f_equal. unfold strip. now rewrite lstrip_all_space.
Qed.

End SelectionMore.

(** ** What a run does to the session *)
Section SessionEffects.

Context {num : Type} {F : Float64 num}.
Variable Agent : Type.
Variable W : @world num Agent.
Variable format_grouped : string -> outcome string.

Import Py Spec.

(** With an agent the button is drawn first, disabled for an empty
    selection only. *)
Lemma analysis_section_button (a : Agent) (sel : list string)
  (mode : analysis_mode) (cq : string) (clicked : bool) (m : machine Agent) :
  agent (session m) = Some a ->
  exists rest,
    page (snd (run (analysis_section W sel mode cq clicked) m))
    = page m ++ st_button_ "🔍 Run Analysis" (negb (truthy_list sel)) :: rest.
Proof.
  intros Ha. destruct sel as [|t sel].
  - exists []. unfold run, analysis_section, bind, get_agent. rewrite Ha.
    simpl. destruct clicked; reflexivity.
  - destruct clicked.
    + assert (Hne : t :: sel <> []) by discriminate.
      destruct (Agent_run W a (compose_query mode (t :: sel) cq))
        as [content|e] eqn:Hq.
      * rewrite (@analysis_section_pressed num F Agent W a (t :: sel) mode cq m
                   Ha Hne).
        unfold try_except.
        pose proof (@run_analysis_run num F Agent W a (t :: sel)
                      (compose_query mode (t :: sel) cq)
                      (with_page m [run_button])) as Hrun.
        unfold run in Hrun. rewrite Hrun, Hq. simpl.
        rewrite <- app_assoc. eexists. reflexivity.
      * rewrite (@analysis_section_failed num F Agent W a (t :: sel) mode cq e m
                   Ha Hne Hq).
        simpl. eexists. reflexivity.
    + exists []. unfold run, analysis_section, bind, get_agent. rewrite Ha.
      reflexivity.
Qed.

(** X9.  The selection the script works with is never empty, whatever the
    multiselect and the free-text hold.  So the Run Analysis button, drawn
    with [disabled=not selected_stocks], is never drawn disabled. *)
Theorem selection_is_never_empty (ms : list string) (custom : string) :
  select_stocks ms custom <> []
  /\ forall (a : Agent) (mode : analysis_mode) (cq : string) (clicked : bool)
            (m : machine Agent),
       agent (session m) = Some a ->
       exists rest,
         page (snd (run (analysis_section W (select_stocks ms custom) mode cq
                           clicked) m))
         = page m ++ st_button_ "🔍 Run Analysis" false :: rest.
Proof.
  pose proof (select_stocks_not_nil ms custom) as Hne.
  split; [exact Hne|].
  intros a mode cq clicked m Ha.
  destruct (analysis_section_button (select_stocks ms custom) mode cq clicked
              m Ha) as [rest Hrest].
  exists rest. rewrite Hrest.
  destruct (select_stocks ms custom); [congruence | reflexivity].
Qed.

(** X12.  A press of Initialize never raises and keeps the history.  The
    agent of the session afterwards is the handle the factory built, in
    place of whatever was there, or none when the factory raised; without
    a press the session is left as it was. *)
Theorem initialize_agent_replaces_handle (clicked : bool) (m : machine Agent) :
  fst (run (initialize_agent W clicked) m) = Ret tt
  /\ analysis_history (session (snd (run (initialize_agent W clicked) m)))
     = analysis_history (session m)
  /\ agent (session (snd (run (initialize_agent W clicked) m)))
     = if clicked
       then match Agent_new W with
            | Ret a => Some a
            | Raise _ => None
            end
       else agent (session m).
Proof.
  destruct clicked.
  - rewrite initialize_agent_run. destruct (Agent_new W); repeat split.
  - repeat split.
Qed.

(** The analysis section returns, and either leaves the session alone or,
    on a press with an agent that answers, appends the record of the run. *)
Lemma analysis_section_cases (sel : list string) (mode : analysis_mode)
  (cq : string) (clicked : bool) (m : machine Agent) :
  exists m',
    run (analysis_section W sel mode cq clicked) m = (Ret tt, m')
    /\ (session m' = session m
        \/ exists a content,
             agent (session m) = Some a /\ clicked = true
             /\ session m'
                = {| agent := Some a;
                     analysis_history :=
                       analysis_history (session m)
                       ++ [analysis_record W m sel (compose_query mode sel cq)
                             content] |}).
Proof.
  assert (Hcase : agent (session m) = None
                  \/ exists a, agent (session m) = Some a)
    by (destruct (agent (session m)); eauto).
  destruct Hcase as [Ha|[a Ha]].
  - eexists. split;
      [apply (@analysis_section_no_agent num F Agent W sel mode cq clicked m Ha)
      | now left].
  - destruct clicked.
    + destruct sel as [|t sel].
      * eexists. split;
          [unfold run, analysis_section, bind, get_agent; rewrite Ha;
           reflexivity
          | now left].
      * assert (Hne : t :: sel <> []) by discriminate.
        destruct (Agent_run W a (compose_query mode (t :: sel) cq))
          as [content|e] eqn:Hq.
        -- destruct (@analysis_section_answered num F Agent W a (t :: sel) mode
                       cq content m Ha Hne Hq) as [Hr Hs].
           destruct (run (analysis_section W (t :: sel) mode cq true) m)
             as [o m'] eqn:Hrun.
           simpl in Hr, Hs. subst o. exists m'. split; [reflexivity|].
           right. exists a, content. repeat split; assumption.
        -- eexists. split;
             [apply (@analysis_section_failed num F Agent W a (t :: sel) mode
                       cq e m Ha Hne Hq)
             | now left].
    + eexists. split;
        [unfold run, analysis_section, bind, get_agent; rewrite Ha;
         destruct sel; reflexivity
        | now left].
Qed.

(** X13.  The analysis section never raises, never changes the agent of
    the session and never rewrites the history: the records there stay, in
    their order, and at most one is added after them.  One is added only
    on a press with an agent present, and it holds the selection and the
    prompt of this run. *)
Theorem analysis_section_is_append_only (sel : list string)
  (mode : analysis_mode) (cq : string) (clicked : bool) (m : machine Agent) :
  fst (run (analysis_section W sel mode cq clicked) m) = Ret tt
  /\ agent (session (snd (run (analysis_section W sel mode cq clicked) m)))
     = agent (session m)
  /\ exists added,
       analysis_history
         (session (snd (run (analysis_section W sel mode cq clicked) m)))
       = analysis_history (session m) ++ added
       /\ List.length added <= 1
       /\ Forall
            (fun r => stocks r = sel
                      /\ query r = compose_query mode sel cq
                      /\ clicked = true /\ agent (session m) <> None)
            added.
Proof.
  destruct (analysis_section_cases sel mode cq clicked m)
    as [m' [Hrun [Hs|[a [content [Ha [Hc Hs]]]]]]];
    rewrite Hrun; simpl; rewrite Hs; simpl.
  - split; [reflexivity|]. split; [reflexivity|].
    exists []. rewrite app_nil_r.
    split; [reflexivity|]. split; [simpl; lia | constructor].
  - split; [reflexivity|]. split; [now rewrite Ha|].
    eexists. split; [reflexivity|]. split; [simpl; lia|].
    constructor; [|constructor]. repeat split; [exact Hc|].
    rewrite Ha. discriminate.
Qed.



(** [col1] does to the machine what [data_column] does, and leaves the
    fetched dictionary in [stock_data]. *)
Lemma col1_data_column (sel : list string) (m : machine Agent) :
  run (col1 W sel) m
  = (Ret (if truthy_list sel then Some (fetched W "6mo" [] sel) else None),
     snd (run (data_column W sel) m)).
Proof.
  destruct sel as [|t sel]; [reflexivity|].
  unfold run, col1, data_column.
  change (truthy_list (t :: sel)) with true. cbv iota.
  rewrite !(fun B k =>
              @bind_run num Agent unit B
                (st_header ("📈 Live Data for " ++ join ", " (t :: sel))) k
                m tt _ eq_refl).
  rewrite !(fun B k =>
              @bind_run num Agent _ B (get_stock_data W (t :: sel) "6mo") k
                _ _ _ (for_each_get_stock_data_step W "6mo" (t :: sel) [] _)).
  destruct (truthy_list (fetched W "6mo" [] (t :: sel))); [|reflexivity].
  unfold bind at 1.
  match goal with
  | |- context [bind (metric_cards ?sd) _ ?m2] =>
      destruct (page_only_metric_cards (F := F) sd m2) as [n [us Hn]];
      rewrite !(fun B k => @bind_run num Agent _ B (metric_cards sd) k
                             m2 n _ Hn)
  end.
  reflexivity.
Qed.












End SessionEffects.

(** ** The history panel *)
Section HistoryPanelFacts.

Context {num : Type}.

Import Py Spec.

Lemma nth_error_enumerate_from {A} (l : list A) :
  forall (start k i : nat) (a : A),
    nth_error (combine (seq start (List.length l)) l) k = Some (i, a) ->
    i = start + k /\ nth_error l k = Some a.
Proof.
  induction l as [|b l IH]; intros start k i a; simpl.
  - destruct k; discriminate.
  - destruct k as [|k]; simpl.
    + intros H. injection H as <- <-. split; [lia | reflexivity].
    + intros H. apply IH in H. destruct H as [-> H]. split; [lia | exact H].
Qed.

(** The rows the loop goes through: at most five, the [k]-th being the
    record [k] places before the last one. *)
Lemma history_rows_spec (h : list (@AnalysisRecord num)) :
  List.length (history_rows h) = Nat.min 5 (List.length h)
  /\ forall k i a,
       nth_error (history_rows h) k = Some (i, a) ->
       i = k /\ k < Nat.min 5 (List.length h)
       /\ nth_error h (List.length h - S k) = Some a.
Proof.
  unfold history_rows, enumerate, slice_last.
  assert (Hlen : List.length (rev (skipn (List.length h - 5) h))
                 = Nat.min 5 (List.length h))
    by (rewrite length_rev, length_skipn; lia).
  split.
  - rewrite length_combine, length_seq, Hlen. lia.
  - intros k i a H. apply nth_error_enumerate_from in H.
    destruct H as [-> H]. split; [reflexivity|].
    assert (Hk : k < Nat.min 5 (List.length h)).
    { rewrite <- Hlen. apply nth_error_Some. congruence. }
    split; [exact Hk|].
    rewrite nth_error_rev, length_skipn in H.
    replace (k <? List.length h - (List.length h - 5)) with true in H
      by (symmetry; apply Nat.ltb_lt; lia).
    rewrite nth_error_skipn in H. rewrite <- H. f_equal. lia.
Qed.

Lemma numbered_history_entries (h : list (@AnalysisRecord num))
  (rows : list (nat * @AnalysisRecord num)) :
  numbered (flat_map (fun row => history_entry h (fst row) (snd row)) rows)
  = map (fun row =>
           ((Z.of_nat (List.length h) - Z.of_nat (fst row))%Z,
            [panel_markdown (txt (response (snd row)))]))
        rows.
Proof.
  induction rows as [|[i a] rows IH]; simpl; [reflexivity|].
  now rewrite IH.
Qed.

(** X15.  The history panel: for an empty history nothing is drawn.
    Otherwise the header and one outer expander are drawn, and the outer
    expander holds one numbered expander per record of the last five (of
    all of them when there are fewer), the newest first.  The number on
    an expander is the place of its record in the whole history, counted
    from 1, and the expander holds that record's response. *)
Theorem history_panel_numbers_the_latest_five (h : list (@AnalysisRecord num)) :
  (h = [] -> history_panel h = [])
  /\ (h <> [] ->
      exists inner,
        history_panel h
        = [panel_header "📚 Analysis History";
           panel_expander "View Previous Analyses" inner]
        /\ List.length (numbered inner) = Nat.min 5 (List.length h)
        /\ forall k n body,
             nth_error (numbered inner) k = Some (n, body) ->
             n = (Z.of_nat (List.length h) - Z.of_nat k)%Z
             /\ exists a,
                  nth_error h (Z.to_nat (n - 1)) = Some a
                  /\ body = [panel_markdown (txt (response a))]).
Proof.
  split; [intros ->; reflexivity|].
  intros Hne. destruct (history_rows_spec h) as [Hlen Hrows].
  exists (flat_map (fun row => history_entry h (fst row) (snd row))
                   (history_rows h)).
  split; [destruct h; [congruence | reflexivity]|].
  rewrite numbered_history_entries. split; [now rewrite length_map|].
  intros k n body Hk. rewrite nth_error_map in Hk.
  destruct (nth_error (history_rows h) k) as [[i a]|] eqn:Hrow;
    [|discriminate].
  simpl in Hk. injection Hk as <- <-.
  destruct (Hrows k i a Hrow) as [-> [Hlt Ha]].
  split; [reflexivity|]. exists a. split; [|reflexivity].
  rewrite <- Ha. f_equal. lia.
Qed.

Lemma history_panel_latest (h : list (@AnalysisRecord num))
  (r : @AnalysisRecord num) :
  exists inner rest,
    history_panel (h ++ [r])
    = [panel_header "📚 Analysis History";
       panel_expander "View Previous Analyses" inner]
    /\ numbered inner
       = ((Z.of_nat (List.length h) + 1)%Z, [panel_markdown (txt (response r))])
         :: rest
    /\ List.length rest = Nat.min 4 (List.length h).
Proof.
  destruct (history_rows_spec (h ++ [r])) as [Hlen Hrows].
  rewrite length_app in Hlen, Hrows. cbn [List.length] in Hlen, Hrows.
  destruct (history_rows (h ++ [r])) as [|[i a] rows] eqn:E;
    [cbn [List.length] in Hlen; lia|].
  destruct (Hrows 0 i a eq_refl) as [-> [_ Ha]].
  replace (List.length h + 1 - 1) with (List.length h) in Ha by lia.
  rewrite nth_error_app2, Nat.sub_diag in Ha by lia.
  injection Ha as <-.
  exists (flat_map (fun row => history_entry (h ++ [r]) (fst row) (snd row))
                   ((0, r) :: rows)),
         (map (fun row =>
                 ((Z.of_nat (List.length (h ++ [r])) - Z.of_nat (fst row))%Z,
                  [panel_markdown (txt (response (snd row)))]))
              rows).
  split; [|split].
  - unfold history_panel. rewrite E. destruct h; reflexivity.
  - rewrite numbered_history_entries. simpl. rewrite length_app. simpl.
    do 2 f_equal. lia.
  - rewrite length_map. cbn [List.length] in Hlen. lia.
Qed.

End HistoryPanelFacts.

(** ** From an analysis run to the history panel *)
Section RunToPanel.

Context {num : Type} {F : Float64 num}.
Variable Agent : Type.
Variable W : @world num Agent.

Import Py Spec.

(** X16.  After a press of Run Analysis that the agent answers, the
    history panel drawn from the session shows the new analysis on top:
    its first numbered expander carries the new length of the history
    and holds the response just given; under it come the up to four
    records before. *)
Theorem answered_run_tops_the_panel (a : Agent) (sel : list string)
  (mode : analysis_mode) (cq content : string) (m : machine Agent) :
  agent (session m) = Some a ->
  sel <> [] ->
  Agent_run W a (compose_query mode sel cq) = Ret content ->
  exists inner rest,
    history_panel
      (analysis_history
         (session (snd (run (analysis_section W sel mode cq true) m))))
    = [panel_header "📚 Analysis History";
       panel_expander "View Previous Analyses" inner]
    /\ numbered inner
       = ((Z.of_nat (List.length (analysis_history (session m))) + 1)%Z,
          [panel_markdown (txt content)])
         :: rest
    /\ List.length rest
       = Nat.min 4 (List.length (analysis_history (session m))).
Proof.
  intros Ha Hsel Hq.
  destruct (@analysis_section_answered num F Agent W a sel mode cq content m
              Ha Hsel Hq) as [_ Hs].
  rewrite Hs. simpl.
  apply (history_panel_latest (analysis_history (session m))
           (analysis_record W m sel (compose_query mode sel cq) content)).
Qed.

(** X17.  What an answered run shows is what it records: the response
    put on the page is the response of the appended record, and the
    seconds of the success message are formatted from the same difference
    of clock readings, to the same two decimals, as the duration of the
    record. *)
Theorem shown_result_is_recorded (a : Agent) (sel : list string)
  (mode : analysis_mode) (cq content : string) (m : machine Agent) :
  agent (session m) = Some a ->
  sel <> [] ->
  Agent_run W a (compose_query mode sel cq) = Ret content ->
  exists r d,
    analysis_history
      (session (snd (run (analysis_section W sel mode cq true) m)))
    = analysis_history (session m) ++ [r]
    /\ response r = content
    /\ duration r = [Fixed false 2 d; Lit "s"]
    /\ In (st_markdown_ content)
          (page (snd (run (analysis_section W sel mode cq true) m)))
    /\ In (st_success_ [Lit "✅ Analysis completed in "; Fixed false 2 d;
                        Lit " seconds"])
          (page (snd (run (analysis_section W sel mode cq true) m))).
Proof.
  intros Ha Hsel Hq.
  exists (analysis_record W m sel (compose_query mode sel cq) content),
         (fsub (time_at W (S (clock m))) (time_at W (clock m))).
  rewrite (@analysis_section_pressed num F Agent W a sel mode cq m Ha Hsel).
  unfold try_except.
  pose proof (@run_analysis_run num F Agent W a sel (compose_query mode sel cq)
                (with_page m [run_button])) as Hrun.
  unfold run in Hrun. rewrite Hrun, Hq.
  cbn [fst snd session page clock agent analysis_history with_page].
  split; [reflexivity|]. split; [reflexivity|]. split; [reflexivity|].
  split; apply in_or_app; right.
  - right. right. now left.
  - right. right. right. right. now left.
Qed.

End RunToPanel.

(** ** The theorems at concrete inputs *)

(** The two-symbol scenario: the unknown symbol is left out with one
    warning and AAPL is kept. *)
Example get_stock_data_bad_symbol :
  run (get_stock_data Demo.market ["AAPL"; "BADSYM"] "6mo") Demo.fresh
  = (Ret [("AAPL", {| history := Demo.aapl;
                      info := [("longName", "AAPL")];
                      current_price := Some (inject_Z 110) |})],
     Spec.with_page Demo.fresh
       [st_warning_
          "Could not fetch data for BADSYM: No data found, symbol may be delisted"]).
Proof. reflexivity. Qed.

(** C4 as stated fails: EMPTY comes back with an empty history and is a
    key of the result all the same. *)
Lemma empty_history_not_omitted :
  ~ Spec.omits_empty_history Demo.market ["AAPL"; "EMPTY"] "6mo".
Proof.
  intros H.
  apply (H "EMPTY" _ Demo.fresh _ (or_intror (or_introl eq_refl)) eq_refl eq_refl).
  right. left. reflexivity.
Qed.

(** C4 as amended, on the market: EMPTY is kept, without a current price. *)
Lemma empty_history_symbol_is_kept_witness :
  In "EMPTY" ["AAPL"; "EMPTY"]
  /\ Ticker_history Demo.market "EMPTY" "6mo" = Ret []
  /\ exists data m',
       run (get_stock_data Demo.market ["AAPL"; "EMPTY"] "6mo") Demo.fresh
       = (Ret data, m')
       /\ In "EMPTY" (Py.keys data)
       /\ Py.dict_get "EMPTY" data
          = Some {| history := []; info := [("longName", "EMPTY")];
                    current_price := None |}.
Proof.
  split; [right; left; reflexivity|].
  split; [reflexivity|].
  apply (@empty_history_symbol_is_kept Q nat Demo.market ["AAPL"; "EMPTY"] "6mo"
           "EMPTY" [("longName", "EMPTY")] Demo.fresh).
  - right. left. reflexivity.
  - reflexivity.
  - reflexivity.
Defined.

(** C5 as stated fails: with an empty history (fewer than two points) the
    card block shows nothing, not the price alone. *)
Lemma empty_history_shows_no_price :
  fetch_symbol Demo.market "EMPTY" "6mo"
  = Ret {| history := []; info := [("longName", "EMPTY")];
           current_price := None |}
  /\ ~ Spec.price_only_below_two_points nat
         {| history := []; info := [("longName", "EMPTY")];
            current_price := @None Q |}.
Proof.
  split; [reflexivity|].
  intros H.
  destruct (H (Nat.lt_0_succ 1) 0 "EMPTY" Demo.fresh) as [value Hv].
  discriminate Hv.
Qed.

(** C5 as amended, on the market: AAPL closed at 100 and then at 110. *)
Lemma metric_card_day_change_witness :
  fetch_symbol Demo.market "AAPL" "6mo" = Ret (Demo.stored "AAPL" Demo.aapl)
  /\ truthy (inject_Z 110) = true
  /\ run (metric_card 0 "AAPL" (Demo.stored "AAPL" Demo.aapl)) Demo.fresh
     = (Ret tt,
        Spec.with_page Demo.fresh
          [st_metric_ 0 "AAPL" [Lit "$"; Fixed false 2 (inject_Z 110)]
             (Some [Fixed true 2 (fsub (inject_Z 110) (inject_Z 100));
                    Lit " (";
                    Fixed true 1
                      (fmul (fdiv (fsub (inject_Z 110) (inject_Z 100))
                                  (inject_Z 100))
                            (of_int 100));
                    Lit "%)"])]).
Proof.
  split; [reflexivity|]. split; [reflexivity|].
  apply (proj2 (@metric_card_day_change Q Q_Float64 nat Demo.market "6mo" "AAPL"
                  (Demo.stored "AAPL" Demo.aapl)
                  [Demo.day "2024-01-02" (inject_Z 100) 10]
                  (Demo.day "2024-01-03" (inject_Z 110) 20)
                  0 Demo.fresh eq_refl eq_refl eq_refl)
               [] (Demo.day "2024-01-02" (inject_Z 100) 10) eq_refl).
Defined.

(** C10 on the market: ZERO has two points and a last close of 0, and gets
    no card. *)
Lemma metric_card_needs_truthy_price_witness :
  fetch_symbol Demo.market "ZERO" "6mo"
  = Ret (Demo.stored "ZERO" [Demo.day "2024-01-02" (inject_Z 3) 5;
                            Demo.day "2024-01-03" (inject_Z 0) 5])
  /\ run (metric_card 0 "ZERO"
            (Demo.stored "ZERO" [Demo.day "2024-01-02" (inject_Z 3) 5;
                                Demo.day "2024-01-03" (inject_Z 0) 5]))
         Demo.fresh
     = (Ret tt, Demo.fresh).
Proof.
  split; [reflexivity|].
  apply (proj1 (@metric_card_needs_truthy_price Q Q_Float64 nat Demo.market "6mo" "ZERO"
                  _ 0 Demo.fresh eq_refl)).
  right. exists [Demo.day "2024-01-02" (inject_Z 3) 5],
                (Demo.day "2024-01-03" (inject_Z 0) 5).
  split; reflexivity.
Defined.

(** C6 on the portfolio: one price series for AAPL, no volume series for
    EMPTY, 30 of the 200 volumes of LONG. *)
Lemma charts_one_series_per_symbol_witness :
  NoDup (Py.keys Demo.portfolio)
  /\ Spec.series_of "AAPL" (create_price_chart Demo.portfolio)
     = [Spec.price_series "AAPL" (Demo.snap Demo.aapl)]
  /\ Spec.series_of "EMPTY" (create_volume_chart Demo.portfolio) = []
  /\ map Spec.points (Spec.series_of "LONG" (create_volume_chart Demo.portfolio))
     = [30].
Proof.
  assert (Hnd : NoDup (Py.keys Demo.portfolio)).
  { repeat constructor; simpl; intuition discriminate. }
  split; [exact Hnd|].
  pose proof (charts_one_series_per_symbol Demo.portfolio "AAPL" Hnd) as HA.
  pose proof (charts_one_series_per_symbol Demo.portfolio "EMPTY" Hnd) as HE.
  pose proof (charts_one_series_per_symbol Demo.portfolio "LONG" Hnd) as HL.
  split; [exact (proj1 HA)|].
  split; [exact (proj2 HE)|].
  destruct HL as [_ [older [recent [_ [Hlen Hbar]]]]].
  rewrite Hbar. simpl. now rewrite Hlen.
Defined.

(** C2 on a ready session: the record appended when the agent answers, the
    session kept when it raises. *)
Lemma analysis_run_atomic_witness :
  agent (session Demo.ready) = Some 1
  /\ ["AAPL"] <> @nil string
  /\ analysis_history
       (session (snd (run (analysis_section Demo.market ["AAPL"]
                             QuickComparison "" true) Demo.ready)))
     = [{| timestamp := "2024-01-03 10:00:00";
           stocks := ["AAPL"];
           query := compose_query QuickComparison ["AAPL"] "";
           response := "Hold.";
           duration := [Fixed false 2 (fsub (inject_Z 1) (inject_Z 0)); Lit "s"] |}]
  /\ session (snd (run (analysis_section Demo.outage ["AAPL"]
                          QuickComparison "" true) Demo.ready))
     = session Demo.ready.
Proof.
  split; [reflexivity|].
  split; [discriminate|].
  split.
  - exact (proj2 (proj2 (@analysis_run_atomic Q Q_Float64 nat Demo.market 1 ["AAPL"]
                           QuickComparison "" Demo.ready eq_refl
                           (fun H => @nil_cons string "AAPL" [] (eq_sym H))))).
  - exact (proj1 (proj2 (@analysis_run_atomic Q Q_Float64 nat Demo.outage 1 ["AAPL"]
                           QuickComparison "" Demo.ready eq_refl
                           (fun H => @nil_cons string "AAPL" [] (eq_sym H))))).
Defined.

(** C3 as stated fails: in Custom Query mode with an empty free-text the
    agent is asked all the same, and its answer is recorded. *)
Lemma empty_custom_query_still_runs :
  ~ Spec.empty_custom_query_runs_nothing Demo.market ["AAPL"] Demo.ready.
Proof. unfold Spec.empty_custom_query_runs_nothing. discriminate. Qed.

(** C3 as amended, on a ready session. *)
Lemma custom_query_prompt_witness :
  compose_query CustomQuery ["AAPL"; "MSFT"] "growth?"
  = "Analyze AAPL, MSFT stocks: growth?"
  /\ analysis_history
       (session (snd (run (analysis_section Demo.market ["AAPL"; "MSFT"]
                             CustomQuery "" true) Demo.ready)))
     = [Spec.analysis_record Demo.market Demo.ready ["AAPL"; "MSFT"]
          "Analyze AAPL, MSFT stocks: " "Hold."].
Proof.
  split.
  - exact (proj1 (@custom_query_prompt Q Q_Float64 nat Demo.market
                    ["AAPL"; "MSFT"] "growth?")).
  - exact (proj2 (@custom_query_prompt Q Q_Float64 nat Demo.market
                    ["AAPL"; "MSFT"] "")
             1 Demo.ready "Hold." eq_refl
             (fun H => @nil_cons string "AAPL" ["MSFT"] (eq_sym H)) eq_refl).
Defined.

(** C7: a press without an agent, and a press with an empty selection. *)
Lemma run_analysis_gated_witness :
  agent (session Demo.fresh) = None
  /\ session (snd (run (analysis_section Demo.market ["AAPL"] QuickComparison
                          "" true) Demo.fresh))
     = session Demo.fresh
  /\ run (analysis_section Demo.market [] QuickComparison "" true) Demo.ready
     = (Ret tt,
        Spec.with_page Demo.ready [st_button_ "🔍 Run Analysis" true]).
Proof.
  split; [reflexivity|].
  split.
  - rewrite (proj1 (@run_analysis_gated Q Q_Float64 nat Demo.market ["AAPL"]
                      QuickComparison "" true Demo.fresh) eq_refl).
    reflexivity.
  - exact (proj2 (proj2 (@run_analysis_gated Q Q_Float64 nat Demo.market
                           [] QuickComparison "" true Demo.ready))
             1 eq_refl eq_refl).
Defined.



(** C1 during an outage: every fetch raises, two warnings, no entry. *)
Lemma get_stock_data_isolates_failures_witness :
  run (get_stock_data Demo.outage ["AAPL"; "MSFT"] "6mo") Demo.fresh
  = (Ret [],
     Spec.with_page Demo.fresh
       [st_warning_ "Could not fetch data for AAPL: network unreachable";
        st_warning_ "Could not fetch data for MSFT: network unreachable"]).
Proof.
  destruct (@get_stock_data_isolates_failures Q nat Demo.outage
              ["AAPL"; "MSFT"] "6mo" Demo.fresh)
    as [data [Hrun [_ [_ [_ [_ Hnone]]]]]].
  rewrite Hrun, Hnone; [reflexivity|].
  intros s _. exists "network unreachable". reflexivity.
Defined.

(** X8 on the market: the header, the warning for BADSYM, the card of
    AAPL, the two charts. *)
Lemma data_column_layout_witness :
  ["AAPL"; "BADSYM"] <> @nil string
  /\ exists cards,
       run (data_column Demo.market ["AAPL"; "BADSYM"]) Demo.fresh
       = (Ret tt,
          Spec.with_page Demo.fresh
            ([st_header_ "📈 Live Data for AAPL, BADSYM";
              st_warning_
                "Could not fetch data for BADSYM: No data found, symbol may be delisted"]
             ++ cards
             ++ [st_plotly_chart_
                   (create_price_chart [("AAPL", Demo.stored "AAPL" Demo.aapl)]);
                 st_plotly_chart_
                   (create_volume_chart [("AAPL", Demo.stored "AAPL" Demo.aapl)])]))
       /\ Forall (fun u => exists i label value delta,
                             u = st_metric_ i label value delta /\ i < 2)
                 cards.
Proof.
  split; [discriminate|].
  destruct (@data_column_layout Q Q_Float64 nat Demo.market ["AAPL"; "BADSYM"]
              Demo.fresh ltac:(discriminate))
    as [data [warnings [cards [Hfetch [Hrun Hcols]]]]].
  injection Hfetch as <- <-.
  exists cards. split; [exact Hrun | exact Hcols].
Defined.

(** X10: blanks around one comma give two empty tickers. *)
Lemma blank_free_text_selects_empty_tickers_witness :
  " , " <> EmptyString
  /\ Spec.blank_or_comma " , " = true
  /\ select_stocks ["JPM"] " , " = [EmptyString; EmptyString].
Proof.
  split; [discriminate|]. split; [reflexivity|].
  exact (proj1 (@blank_free_text_selects_empty_tickers ["JPM"] " , "
                  ltac:(discriminate) eq_refl)).
Defined.

(** X11: what " aapl,msft" selects is shown as "AAPL, MSFT", which selects
    the same. *)
Lemma shown_selection_selects_itself_witness :
  Py.isascii " aapl,msft" = true
  /\ Py.join ", " (select_stocks [] " aapl,msft") = "AAPL, MSFT"
  /\ select_stocks ["JPM"] "AAPL, MSFT" = select_stocks [] " aapl,msft".
Proof.
  split; [reflexivity|]. split; [reflexivity|].
  exact (proj2 (@shown_selection_selects_itself [] ["JPM"] " aapl,msft"
                  ltac:(discriminate) eq_refl ltac:(discriminate))).
Defined.

(** X15 on a history of one record. *)
Lemma history_panel_numbers_the_latest_five_witness :
  exists inner,
    history_panel
      [Spec.analysis_record Demo.market Demo.ready ["AAPL"] "q" "Hold."]
    = [panel_header "📚 Analysis History";
       panel_expander "View Previous Analyses" inner]
    /\ List.length (Spec.numbered inner) = 1.
Proof.
  destruct (proj2 (history_panel_numbers_the_latest_five
                     [Spec.analysis_record Demo.market Demo.ready ["AAPL"] "q"
                        "Hold."])
              ltac:(discriminate))
    as [inner [Hpanel [Hlen _]]].
  exists inner. split; assumption.
Defined.

(** X16 on a ready session: the first answer is numbered 1. *)
Lemma answered_run_tops_the_panel_witness :
  agent (session Demo.ready) = Some 1
  /\ exists inner,
       history_panel
         (analysis_history
            (session (snd (run (analysis_section Demo.market ["AAPL"]
                                  QuickComparison "" true) Demo.ready))))
       = [panel_header "📚 Analysis History";
          panel_expander "View Previous Analyses" inner]
       /\ Spec.numbered inner = [(1%Z, [panel_markdown (txt "Hold.")])].
Proof.
  split; [reflexivity|].
  destruct (@answered_run_tops_the_panel Q Q_Float64 nat Demo.market 1 ["AAPL"]
              QuickComparison "" "Hold." Demo.ready eq_refl
              ltac:(discriminate) eq_refl)
    as [inner [rest [Hpanel [Hnum Hlen]]]].
  exists inner. split; [exact Hpanel|].
  rewrite Hnum. destruct rest; [reflexivity | discriminate].
Defined.

(** X9 on a ready session: blanks in the free-text still leave a
    selection, and the button is drawn enabled. *)
Lemma selection_is_never_empty_witness :
  select_stocks [] " " = [EmptyString]
  /\ exists rest,
       page (snd (run (analysis_section Demo.market (select_stocks [] " ")
                         QuickComparison "" false) Demo.ready))
       = st_button_ "🔍 Run Analysis" false :: rest.
Proof.
  split; [reflexivity|].
  exact (proj2 (@selection_is_never_empty Q Q_Float64 nat Demo.market [] " ")
           1 QuickComparison "" false Demo.ready eq_refl).
Defined.

(** X17 on a ready session. *)
Lemma shown_result_is_recorded_witness :
  agent (session Demo.ready) = Some 1
  /\ In (st_markdown_ "Hold.")
        (page (snd (run (analysis_section Demo.market ["AAPL"] QuickComparison
                           "" true) Demo.ready))).
Proof.
  split; [reflexivity|].
  destruct (@shown_result_is_recorded Q Q_Float64 nat Demo.market 1 ["AAPL"]
              QuickComparison "" "Hold." Demo.ready eq_refl
              ltac:(discriminate) eq_refl)
    as [r [d [_ [_ [_ [Hshown _]]]]]].
  exact Hshown.
Defined.


(** The same press where the library gives no market capitalisation key
    at all: the default 0 is formatted, the run reaches the analysis
    section and one record is added. *)
Example main_reaches_the_analysis :
  fst (run (main Demo.market Demo.format_grouped Demo.press_run) Demo.ready)
  = Ret tt
  /\ List.length
       (analysis_history
          (session (snd (run (main Demo.market Demo.format_grouped
                                Demo.press_run) Demo.ready))))
     = 1.
Proof. split; reflexivity. Qed.

